(** * Podcast surveys: the dashboard's query / aggregation / pagination
    pipeline and the survey form's submission handler.

  Shallow embedding of [src/pages/Dashboard.tsx] (both dashboard
  variants share the logic modelled here; only the first one has the
  bulk delete) and of [src/pages/SurveyForm.tsx] (both variants, which
  differ in their messages only).

  - JavaScript strings are [string]; [Array<T>] is [list T];
  - the [Stats] objects are the own properties of an object created by
    [{}], a [gmap] from keys to stored values, read through
    [Object.prototype] where the object has no own property;
  - page numbers and array indices are [Z] (JavaScript numbers holding
    integers);
  - React state is a record, every handler is a function on it, and the
    [useEffect] that depends on the filter inputs is run by [step]. *)

From Stdlib Require Import ZArith List Bool Lia.
From stdpp Require Import gmap strings list fin_maps sorting.

Local Open Scope Z_scope.

(** ** The JavaScript runtime functions the code calls *)

Module JsString.

(** [s.startsWith(t)] *)
Fixpoint startsWith (s t : string) {struct t} : bool :=
  match t, s with
  | EmptyString, _ => true
  | String _ _, EmptyString => false
  | String b t', String a s' => if Ascii.eqb a b then startsWith s' t' else false
  end.

(** [s.includes(t)]: [t] occurs in [s] at some position. *)
Fixpoint includes (s t : string) : bool :=
  startsWith s t ||
  match s with
  | EmptyString => false
  | String _ s' => includes s' t
  end.

(** Truthiness of a string value: every string but the empty one. *)
Definition truthy (s : string) : bool :=
  match s with
  | EmptyString => false
  | String _ _ => true
  end.

(** What "t is a substring of s" means. *)
Definition substring_of (t s : string) : Prop :=
  ∃ pre post : string, s = (pre +:+ t +:+ post)%string.

(** [String.prototype.toLowerCase] follows the Unicode case mapping, which
    is not part of the repository.  The code is modelled over any
    lower-casing function that maps the empty string, and only it, to the
    empty string. *)
Class Runtime := {
  toLowerCase : string → string;
  toLowerCase_empty : ∀ s, toLowerCase s = EmptyString ↔ s = EmptyString
}.

(** The restriction of [toLowerCase] to the ASCII letters. *)
Definition ascii_lower (c : Ascii.ascii) : Ascii.ascii :=
  let n := Ascii.nat_of_ascii c in
  if ((65 <=? n)%nat && (n <=? 90)%nat)%bool
  then Ascii.ascii_of_nat (n + 32) else c.

Fixpoint ascii_toLowerCase (s : string) : string :=
  match s with
  | EmptyString => EmptyString
  | String c s' => String (ascii_lower c) (ascii_toLowerCase s')
  end.

(** The ASCII lower-casing is one instance of the runtime. *)
#[local] Instance ascii_runtime : Runtime.
Proof.
  refine {| toLowerCase := ascii_toLowerCase |}.
  intros s. destruct s; simpl; split; intros Heq;
    first [reflexivity | discriminate Heq].
Defined.

End JsString.

Module JsArray.

(** [xs.includes(x)] on an array of strings. *)
Definition includes (xs : list string) (x : string) : bool :=
  existsb (String.eqb x) xs.

(** [xs.slice(start, end)]: a negative index counts from the end, and
    both are clamped into [0, xs.length]. *)
Definition relative (len i : Z) : Z :=
  if i <? 0 then Z.max (len + i) 0 else Z.min i len.

Definition slice {A} (xs : list A) (start end_ : Z) : list A :=
  let len := Z.of_nat (length xs) in
  let k := relative len start in
  let final := relative len end_ in
  take (Z.to_nat (Z.max (final - k) 0)) (drop (Z.to_nat k) xs).

(** [Array.from(new Set(xs))]: a [Set] keeps each value once, in the order
    of first insertion. *)
Definition Set_add (set : list string) (x : string) : list string :=
  if includes set x then set else set ++ [x].

Definition from_Set (xs : list string) : list string := foldl Set_add [] xs.

(** The order of [xs.sort()] without a comparator: by code units, a proper
    prefix first. *)
Definition code_unit_le (a b : string) : Prop := String.leb a b = true.

#[global] Instance code_unit_le_dec (a b : string) : Decision (code_unit_le a b).
Proof. unfold code_unit_le. apply _. Defined.

(** [xs.sort()] on strings.  The order is total and antisymmetric, so the
    sorted array does not depend on the algorithm; merge sort stands for the
    runtime's. *)
Definition sort (xs : list string) : list string := merge_sort code_unit_le xs.

End JsArray.

(** [Math.ceil(a / b)] for integers [0 <= a] and [0 < b].  The division is
  a double-precision one in the source; for an array length [a] and
  [b = 10] its ceiling is the exact integer ceiling. *)
Definition Math_ceil_div (a b : Z) : Z := - ((- a) / b).

(** An object created by [{}] and used as a table. *)
Module JsObject.

(** What the code comes to store under a key: a number, or the string that
    [+ 1] makes of a value that is not a number. *)
Inductive Value :=
| Number (n : nat)
| Text (s : string).

(** The properties of [Object.prototype] that are functions, each with the
    name its function prints. *)
Definition prototype_functions : list (string * string) :=
  [("constructor", "Object");
   ("hasOwnProperty", "hasOwnProperty");
   ("isPrototypeOf", "isPrototypeOf");
   ("propertyIsEnumerable", "propertyIsEnumerable");
   ("toLocaleString", "toLocaleString");
   ("toString", "toString");
   ("valueOf", "valueOf");
   ("__defineGetter__", "__defineGetter__");
   ("__defineSetter__", "__defineSetter__");
   ("__lookupGetter__", "__lookupGetter__");
   ("__lookupSetter__", "__lookupSetter__")]%string.

(** [String(f)] for a built-in function [f] (the layout is the engine's;
    this is V8's). *)
Definition function_text (name : string) : string :=
  ("function " +:+ name +:+ "() { [native code] }")%string.

Fixpoint assoc (key : string) (table : list (string * string)) : option string :=
  match table with
  | [] => None
  | (k, v) :: table => if String.eqb k key then Some v else assoc key table
  end.

(** What [o[key]] reads from [Object.prototype] when [o] has no own
    property [key], as the string [+] makes of it; [None] when the read is
    [undefined].  [__proto__] is an accessor whose getter returns
    [Object.prototype] itself. *)
Definition inherited (key : string) : option string :=
  if String.eqb key "__proto__" then Some "[object Object]"%string
  else option_map function_text (assoc key prototype_functions).

(** The key names no property of [Object.prototype]. *)
Definition ordinary (key : string) : bool :=
  match inherited key with
  | None => true
  | Some _ => false
  end.

(** [(o[key] || 0) + 1]: an own property is read first, then the
    prototype; a number counts up, a string gets "1" appended. *)
Definition or_zero_plus_1 (o : gmap string Value) (key : string) : Value :=
  match o !! key with
  | Some (Number n) => Number ((if (n =? 0)%nat then 0 else n) + 1)
  | Some (Text s) => if JsString.truthy s then Text (s +:+ "1") else Number 1
  | None =>
      match inherited key with
      | Some text => Text (text +:+ "1")
      | None => Number 1
      end
  end.

(** [o[key] = v]: an own property, except under [__proto__], whose setter
    ignores a value that is neither an object nor [null]. *)
Definition set (o : gmap string Value) (key : string) (v : Value)
  : gmap string Value :=
  if String.eqb key "__proto__" then o else <[key := v]> o.

(** "1" appended [k] times. *)
Fixpoint ones (k : nat) : string :=
  match k with
  | O => ""
  | S k => (ones k +:+ "1")%string
  end.

End JsObject.

(** ** The dashboard ([Dashboard.tsx]) *)

Module Dashboard.

Record Survey := {
  id : string;
  name : string;
  topics : list string;
  description : string;
  podcast_formats : list string;
  suggested_guest : option string;   (* string | null *)
  created_at : string
}.

(** [interface Stats { [key: string]: number }], built from [{}]: the own
    properties of the object. *)
Abbreviation Stats := (gmap string JsObject.Value).

(** The component's state: one field per [useState].  [surveys_ref] stands
    for the identity of the array held in [surveys]: the dependency check
    of [useEffect] compares arrays by reference, and every [setSurveys] in
    the source stores a freshly allocated array. *)
Record State := {
  surveys : list Survey;
  surveys_ref : nat;
  filteredSurveys : list Survey;
  loading : bool;
  topicFilter : string;
  formatFilter : string;
  searchTerm : string;
  topicStats : Stats;
  formatStats : Stats;
  currentPage : Z;
  deleteItems : list string
}.

Definition itemsPerPage : Z := 10.

Definition initial : State := {|
  surveys := []; surveys_ref := 0; filteredSurveys := []; loading := true;
  topicFilter := "all"; formatFilter := "all"; searchTerm := "";
  topicStats := ∅; formatStats := ∅; currentPage := 1; deleteItems := []
|}.

(** *** State setters *)

Definition setSurveys (v : list Survey) (st : State) : State :=
  {| surveys := v; surveys_ref := S (surveys_ref st);
     filteredSurveys := filteredSurveys st; loading := loading st;
     topicFilter := topicFilter st; formatFilter := formatFilter st;
     searchTerm := searchTerm st; topicStats := topicStats st;
     formatStats := formatStats st; currentPage := currentPage st;
     deleteItems := deleteItems st |}.

Definition setFilteredSurveys (v : list Survey) (st : State) : State :=
  {| surveys := surveys st; surveys_ref := surveys_ref st;
     filteredSurveys := v; loading := loading st;
     topicFilter := topicFilter st; formatFilter := formatFilter st;
     searchTerm := searchTerm st; topicStats := topicStats st;
     formatStats := formatStats st; currentPage := currentPage st;
     deleteItems := deleteItems st |}.

Definition setLoading (v : bool) (st : State) : State :=
  {| surveys := surveys st; surveys_ref := surveys_ref st;
     filteredSurveys := filteredSurveys st; loading := v;
     topicFilter := topicFilter st; formatFilter := formatFilter st;
     searchTerm := searchTerm st; topicStats := topicStats st;
     formatStats := formatStats st; currentPage := currentPage st;
     deleteItems := deleteItems st |}.

Definition setTopicFilter (v : string) (st : State) : State :=
  {| surveys := surveys st; surveys_ref := surveys_ref st;
     filteredSurveys := filteredSurveys st; loading := loading st;
     topicFilter := v; formatFilter := formatFilter st;
     searchTerm := searchTerm st; topicStats := topicStats st;
     formatStats := formatStats st; currentPage := currentPage st;
     deleteItems := deleteItems st |}.

Definition setFormatFilter (v : string) (st : State) : State :=
  {| surveys := surveys st; surveys_ref := surveys_ref st;
     filteredSurveys := filteredSurveys st; loading := loading st;
     topicFilter := topicFilter st; formatFilter := v;
     searchTerm := searchTerm st; topicStats := topicStats st;
     formatStats := formatStats st; currentPage := currentPage st;
     deleteItems := deleteItems st |}.

Definition setSearchTerm (v : string) (st : State) : State :=
  {| surveys := surveys st; surveys_ref := surveys_ref st;
     filteredSurveys := filteredSurveys st; loading := loading st;
     topicFilter := topicFilter st; formatFilter := formatFilter st;
     searchTerm := v; topicStats := topicStats st;
     formatStats := formatStats st; currentPage := currentPage st;
     deleteItems := deleteItems st |}.

Definition setTopicStats (v : Stats) (st : State) : State :=
  {| surveys := surveys st; surveys_ref := surveys_ref st;
     filteredSurveys := filteredSurveys st; loading := loading st;
     topicFilter := topicFilter st; formatFilter := formatFilter st;
     searchTerm := searchTerm st; topicStats := v;
     formatStats := formatStats st; currentPage := currentPage st;
     deleteItems := deleteItems st |}.

Definition setFormatStats (v : Stats) (st : State) : State :=
  {| surveys := surveys st; surveys_ref := surveys_ref st;
     filteredSurveys := filteredSurveys st; loading := loading st;
     topicFilter := topicFilter st; formatFilter := formatFilter st;
     searchTerm := searchTerm st; topicStats := topicStats st;
     formatStats := v; currentPage := currentPage st;
     deleteItems := deleteItems st |}.

Definition setCurrentPage (v : Z) (st : State) : State :=
  {| surveys := surveys st; surveys_ref := surveys_ref st;
     filteredSurveys := filteredSurveys st; loading := loading st;
     topicFilter := topicFilter st; formatFilter := formatFilter st;
     searchTerm := searchTerm st; topicStats := topicStats st;
     formatStats := formatStats st; currentPage := v;
     deleteItems := deleteItems st |}.

Definition setDeleteItems (v : list string) (st : State) : State :=
  {| surveys := surveys st; surveys_ref := surveys_ref st;
     filteredSurveys := filteredSurveys st; loading := loading st;
     topicFilter := topicFilter st; formatFilter := formatFilter st;
     searchTerm := searchTerm st; topicStats := topicStats st;
     formatStats := formatStats st; currentPage := currentPage st;
     deleteItems := v |}.

(** *** Aggregator: [calculateStats] *)

(** [stats[label] = (stats[label] || 0) + 1] *)
Definition count_label (stats : Stats) (label : string) : Stats :=
  JsObject.set stats label (JsObject.or_zero_plus_1 stats label).

(** The two tables after the [data.forEach] loop. *)
Definition calculateStats_tables (data : list Survey) : Stats * Stats :=
  foldl (fun acc survey =>
           (foldl count_label (fst acc) (topics survey),
            foldl count_label (snd acc) (podcast_formats survey)))
        (∅, ∅) data.

Definition calculateStats (data : list Survey) (st : State) : State :=
  let tables := calculateStats_tables data in
  setFormatStats (snd tables) (setTopicStats (fst tables) st).

(** *** Filter engine: [applyFilters] *)

Section WithRuntime.
Context `{JsString.Runtime}.

(** The callback of the search filter; [term] is already lower-cased.  The
    [&&] on [suggested_guest] is false for [null] and for the empty string. *)
Definition search_match (term : string) (s : Survey) : bool :=
  JsString.includes (JsString.toLowerCase (name s)) term
  || JsString.includes (JsString.toLowerCase (description s)) term
  || match suggested_guest s with
     | Some g => JsString.truthy g
                 && JsString.includes (JsString.toLowerCase g) term
     | None => false
     end.

(** The local [filtered] at the end of [applyFilters]. *)
Definition applyFilters_filtered
  (surveys : list Survey) (topicFilter formatFilter searchTerm : string)
  : list Survey :=
  let filtered := surveys in
  let filtered :=
    if negb (String.eqb topicFilter "all")
    then List.filter (fun s => JsArray.includes (topics s) topicFilter) filtered
    else filtered in
  let filtered :=
    if negb (String.eqb formatFilter "all")
    then List.filter (fun s => JsArray.includes (podcast_formats s) formatFilter)
                     filtered
    else filtered in
  let filtered :=
    if JsString.truthy searchTerm
    then let term := JsString.toLowerCase searchTerm in
         List.filter (search_match term) filtered
    else filtered in
  filtered.

Definition applyFilters (st : State) : State :=
  let filtered :=
    applyFilters_filtered (surveys st) (topicFilter st) (formatFilter st)
                          (searchTerm st) in
  setCurrentPage 1 (setFilteredSurveys filtered st).

(** [useEffect(() => applyFilters(), [surveys, topicFilter, formatFilter,
    searchTerm])]: after a render, the effect runs when one of its
    dependencies differs from its value at the previous render. *)
Definition deps_changed (prev next : State) : bool :=
  negb (surveys_ref prev =? surveys_ref next)%nat
  || negb (String.eqb (topicFilter prev) (topicFilter next))
  || negb (String.eqb (formatFilter prev) (formatFilter next))
  || negb (String.eqb (searchTerm prev) (searchTerm next)).

Definition useEffect_applyFilters (prev next : State) : State :=
  if deps_changed prev next then applyFilters next else next.

End WithRuntime.

(** *** Paginator *)

Definition totalPages (st : State) : Z :=
  Math_ceil_div (Z.of_nat (length (filteredSurveys st))) itemsPerPage.

Definition startIndex (st : State) : Z := (currentPage st - 1) * itemsPerPage.

Definition endIndex (st : State) : Z := startIndex st + itemsPerPage.

Definition currentSurveys (st : State) : list Survey :=
  JsArray.slice (filteredSurveys st) (startIndex st) (endIndex st).

Definition goToPage (page : Z) (st : State) : State :=
  setCurrentPage (Z.min (Z.max 1 page) (totalPages st)) st.

(** The page buttons, the only callers of [goToPage], are rendered inside
    the branch [filteredSurveys.length === 0 ? ... : ...] and under
    [totalPages > 1 && ...]. *)
Definition paginationControls_rendered (st : State) : bool :=
  negb (length (filteredSurveys st) =? 0)%nat && (1 <? totalPages st).

(** *** Selection and bulk delete *)

(** The row's click handler: unmark when marked, mark otherwise. *)
Definition toggleDeleteItem (survey_id : string) (st : State) : State :=
  if JsArray.includes (deleteItems st) survey_id
  then setDeleteItems
         (List.filter (fun i => negb (String.eqb i survey_id)) (deleteItems st)) st
  else setDeleteItems (deleteItems st ++ [survey_id]) st.

(** What the record store answers: [error] is [null] or an error object. *)
Inductive StoreResult (A : Type) :=
| StoreOk (data : A)
| StoreError (message : string).
Arguments StoreOk {A} data.
Arguments StoreError {A} message.

(** [handleDeleteSurvey(ids)], with the answer of [window.confirm] and of
    the store.  A store error is logged to the console and nothing else. *)
Definition handleDeleteSurvey
  (ids : list string) (confirmed : bool) (response : StoreResult unit)
  (st : State) : State :=
  if confirmed then
    match response with
    | StoreError _ => st
    | StoreOk _ =>
        setDeleteItems []
          (setSurveys
             (List.filter (fun s => negb (JsArray.includes ids (id s))) (surveys st))
             st)
    end
  else st.

(** [fetchSurveys], once the store has answered. *)
Definition fetchSurveys (response : StoreResult (list Survey)) (st : State)
  : State :=
  let st := setLoading true st in
  let st := match response with
            | StoreError _ => st
            | StoreOk data => calculateStats data (setSurveys data st)
            end in
  setLoading false st.

(** *** The view controller: one event, then the effect *)

(** The events of the dashboard.  [DeleteSelected] is the end of
    [handleDeleteSurvey(deleteItems)]: [ids] is the selection the click
    captured.  The page buttons behind [GoToPage] are rendered only when
    [paginationControls_rendered] holds. *)
Inductive Event :=
| Fetched (response : StoreResult (list Survey))
| TopicFilterChanged (value : string)
| FormatFilterChanged (value : string)
| SearchTermChanged (value : string)
| ClearFilters
| GoToPage (page : Z)
| ToggleDeleteItem (survey_id : string)
| DeleteSelected (ids : list string) (confirmed : bool)
    (response : StoreResult unit).

Definition handle (ev : Event) (st : State) : State :=
  match ev with
  | Fetched response => fetchSurveys response st
  | TopicFilterChanged v => setTopicFilter v st
  | FormatFilterChanged v => setFormatFilter v st
  | SearchTermChanged v => setSearchTerm v st
  | ClearFilters => setSearchTerm "" (setFormatFilter "all" (setTopicFilter "all" st))
  | GoToPage page => goToPage page st
  | ToggleDeleteItem i => toggleDeleteItem i st
  | DeleteSelected ids confirmed response =>
      handleDeleteSurvey ids confirmed response st
  end.

Definition step `{JsString.Runtime} (st : State) (ev : Event) : State :=
  useEffect_applyFilters st (handle ev st).

(** *** What the render derives besides the page *)

(** [Array.from(new Set(surveys.flatMap((s) => s.topics))).sort()] *)
Definition uniqueTopics (st : State) : list string :=
  JsArray.sort (JsArray.from_Set (concat (map topics (surveys st)))).

(** [Array.from(new Set(surveys.flatMap((s) => s.podcast_formats))).sort()] *)
Definition uniqueFormats (st : State) : list string :=
  JsArray.sort (JsArray.from_Set (concat (map podcast_formats (surveys st)))).

(** [Object.keys(topicStats).length] and [Object.keys(formatStats).length],
    the numbers in the headings of the statistics. *)
Definition topicStats_keys (st : State) : nat := size (topicStats st).

Definition formatStats_keys (st : State) : nat := size (formatStats st).

(** "Showing [startIndex + 1]-[Math.min(endIndex, filteredSurveys.length)]
    of [filteredSurveys.length]". *)
Definition showing_first (st : State) : Z := startIndex st + 1.

Definition showing_last (st : State) : Z :=
  Z.min (endIndex st) (Z.of_nat (length (filteredSurveys st))).

(** The four page buttons. *)
Definition firstPage (st : State) : State := goToPage 1 st.

Definition prevPage (st : State) : State := goToPage (currentPage st - 1) st.

Definition nextPage (st : State) : State := goToPage (currentPage st + 1) st.

Definition lastPage (st : State) : State := goToPage (totalPages st) st.

(** [disabled={currentPage === 1}] on First and Prev,
    [disabled={currentPage === totalPages}] on Next and Last. *)
Definition back_disabled (st : State) : bool := currentPage st =? 1.

Definition forward_disabled (st : State) : bool := currentPage st =? totalPages st.

(** The check box of a row: [onChange] with [e.target.checked]. *)
Definition checkboxChange (checked : bool) (survey_id : string) (st : State)
  : State :=
  if checked
  then setDeleteItems (deleteItems st ++ [survey_id]) st
  else setDeleteItems
         (List.filter (fun i => negb (String.eqb i survey_id)) (deleteItems st)) st.

(** *** Runs of the dashboard *)

(** An event can arrive only from a control that is on screen: the page
    buttons are there under [paginationControls_rendered]. *)
Definition enabled (st : State) (ev : Event) : bool :=
  match ev with
  | GoToPage _ => paginationControls_rendered st
  | _ => true
  end.

(** The state after the events [evs], [None] when one of them comes from a
    control that is not on screen. *)
Fixpoint run `{JsString.Runtime} (st : State) (evs : list Event) : option State :=
  match evs with
  | [] => Some st
  | ev :: evs => if enabled st ev then run (step st ev) evs else None
  end.

End Dashboard.

(** ** The survey form ([SurveyForm.tsx]) *)

Module SurveyForm.

(** The object literal handed to [supabase.from("surveys").insert]. *)
Module Row.
Record t := {
  name : string;
  topics : list string;
  description : string;
  podcast_formats : list string;
  suggested_guest : option string
}.
End Row.

Record FormData := {
  name : string;
  topics : list string;
  description : string;
  podcast_formats : list string;
  suggested_guest : string
}.

Record State := {
  formData : FormData;
  loading : bool;
  success : bool;
  error : string
}.

Definition emptyForm : FormData := {|
  name := ""; topics := []; description := ""; podcast_formats := [];
  suggested_guest := ""
|}.

Definition initial : State :=
  {| formData := emptyForm; loading := false; success := false; error := "" |}.

Definition setFormData (v : FormData) (st : State) : State :=
  {| formData := v; loading := loading st; success := success st;
     error := error st |}.

Definition setLoading (v : bool) (st : State) : State :=
  {| formData := formData st; loading := v; success := success st;
     error := error st |}.

Definition setSuccess (v : bool) (st : State) : State :=
  {| formData := formData st; loading := loading st; success := v;
     error := error st |}.

Definition setError (v : string) (st : State) : State :=
  {| formData := formData st; loading := loading st; success := success st;
     error := v |}.

(** The two variants of the form differ in their messages. *)
Inductive Variant := English | Indonesian.

Definition topics_required (v : Variant) : string :=
  match v with
  | English => "Please select at least one topic"
  | Indonesian => "Pilih minimal satu topik yang ingin kamu dengarkan"
  end.

Definition formats_required (v : Variant) : string :=
  match v with
  | English => "Please select at least one podcast format"
  | Indonesian => "Pilih minimal satu format podcast"
  end.

(** A thrown or returned error value: [err instanceof Error], [err.message]. *)
Record JsError := { instanceof_Error : bool; message : string }.

(** How the awaited insert ends: no error, an [insertError] in the answer
    (which the handler throws), or a rejected promise. *)
Inductive InsertOutcome :=
| Inserted
| InsertError (e : JsError)
| Rejected (e : JsError).

(** [value || null] on a string. *)
Definition or_null (value : string) : option string :=
  if JsString.truthy value then Some value else None.

Definition insertRow (f : FormData) : Row.t := {|
  Row.name := name f;
  Row.topics := topics f;
  Row.description := description f;
  Row.podcast_formats := podcast_formats f;
  Row.suggested_guest := or_null (suggested_guest f)
|}.

Definition catch_message (e : JsError) : string :=
  if instanceof_Error e then message e else "An error occurred".

(** [handleCheckboxChange(field, value)], one definition per field. *)
Definition toggle (value : string) (currentArray : list string) : list string :=
  if JsArray.includes currentArray value
  then List.filter (fun item => negb (String.eqb item value)) currentArray
  else currentArray ++ [value].

Definition handleCheckboxChange_topics (value : string) (st : State) : State :=
  let prev := formData st in
  setFormData {| name := name prev; topics := toggle value (topics prev);
                 description := description prev;
                 podcast_formats := podcast_formats prev;
                 suggested_guest := suggested_guest prev |} st.

Definition handleCheckboxChange_podcast_formats (value : string) (st : State)
  : State :=
  let prev := formData st in
  setFormData {| name := name prev; topics := topics prev;
                 description := description prev;
                 podcast_formats := toggle value (podcast_formats prev);
                 suggested_guest := suggested_guest prev |} st.

(** [handleSubmit]: the state it leaves and the insert requests it issued,
    in order.  [store] is the record store's answer to a request. *)
Definition handleSubmit
  (v : Variant) (store : Row.t → InsertOutcome) (st : State)
  : State * list Row.t :=
  let st := setError "" st in
  let st := setSuccess false st in
  if (length (topics (formData st)) =? 0)%nat then
    (setError (topics_required v) st, [])
  else if (length (podcast_formats (formData st)) =? 0)%nat then
    (setError (formats_required v) st, [])
  else
    let st := setLoading true st in
    let row := insertRow (formData st) in
    match store row with
    | Inserted =>
        (setLoading false (setFormData emptyForm (setSuccess true st)), [row])
    | InsertError e | Rejected e =>
        (setLoading false (setError (catch_message e) st), [row])
    end.

(** *** The form's vocabulary and its runs *)

(** [TOPICS] and [PODCAST_FORMATS]: one check box is rendered per entry. *)
Definition TOPICS (v : Variant) : list string :=
  match v with
  | English =>
      ["Technology"; "Business"; "Health & Wellness"; "Entertainment";
       "Education"; "Science"; "Politics"; "Sports"; "Arts & Culture"; "Other"]
  | Indonesian =>
      ["Software Development (Web, Mobile, Game)";
       "Artificial Intelligence & Machine Learning";
       "Cyber Security & Ethical Hacking";
       "Cloud Computing & DevOps";
       "Data Science & Big Data";
       "Blockchain & Web3";
       "Internet of Things (IoT) & Robotics";
       "UI/UX Design & Product Management";
       "Open Source Contribution";
       "Tech Career Roadmaps (Internship & Jobs)";
       "Startup & Digital Business";
       "IT Student Survival Guide (Tips Kuliah)";
       "Tech Trends & News";
       "Competitive Programming & Hackathons";
       "Linux & Open Source Culture";
       "Other (Isikan di kolom Deskripsi)"]
  end.

Definition PODCAST_FORMATS (v : Variant) : list string :=
  match v with
  | English =>
      ["Interview"; "Solo Commentary"; "Panel Discussion"; "Storytelling";
       "News & Analysis"; "Educational"; "Comedy"; "Debate"]
  | Indonesian =>
      ["Expert Interview (Wawancara Dosen/Praktisi)";
       "Alumni Success Story (Berbagi pengalaman lulusan)";
       "Student Talk (Ngobrol santai antar mahasiswa)";
       "Tech News Roundup (Rangkuman berita IT mingguan)";
       "Q&A Session (Menjawab pertanyaan dari audiens)"]
  end.

(** The text inputs: [setFormData({ ...formData, field: e.target.value })]. *)
Definition changeName (value : string) (st : State) : State :=
  let f := formData st in
  setFormData {| name := value; topics := topics f;
                 description := description f;
                 podcast_formats := podcast_formats f;
                 suggested_guest := suggested_guest f |} st.

Definition changeDescription (value : string) (st : State) : State :=
  let f := formData st in
  setFormData {| name := name f; topics := topics f;
                 description := value;
                 podcast_formats := podcast_formats f;
                 suggested_guest := suggested_guest f |} st.

Definition changeSuggestedGuest (value : string) (st : State) : State :=
  let f := formData st in
  setFormData {| name := name f; topics := topics f;
                 description := description f;
                 podcast_formats := podcast_formats f;
                 suggested_guest := value |} st.

Inductive Event :=
| NameChanged (value : string)
| DescriptionChanged (value : string)
| SuggestedGuestChanged (value : string)
| TopicToggled (topic : string)
| FormatToggled (format : string)
| Submitted (store : Row.t → InsertOutcome).

(** A check box event comes from a rendered check box. *)
Definition enabled (v : Variant) (ev : Event) : bool :=
  match ev with
  | TopicToggled topic => JsArray.includes (TOPICS v) topic
  | FormatToggled format => JsArray.includes (PODCAST_FORMATS v) format
  | _ => true
  end.

Definition step (v : Variant) (st : State) (ev : Event) : State * list Row.t :=
  match ev with
  | NameChanged value => (changeName value st, [])
  | DescriptionChanged value => (changeDescription value st, [])
  | SuggestedGuestChanged value => (changeSuggestedGuest value st, [])
  | TopicToggled topic => (handleCheckboxChange_topics topic st, [])
  | FormatToggled format => (handleCheckboxChange_podcast_formats format st, [])
  | Submitted store => handleSubmit v store st
  end.

(** The state after the events [evs] and the rows sent to the store on the
    way, in order; [None] when a check box event names no rendered box. *)
Fixpoint run (v : Variant) (st : State) (evs : list Event)
  : option (State * list Row.t) :=
  match evs with
  | [] => Some (st, [])
  | ev :: evs =>
      if enabled v ev then
        match run v (fst (step v st ev)) evs with
        | Some (st', rows) => Some (st', snd (step v st ev) ++ rows)
        | None => None
        end
      else None
  end.

End SurveyForm.

(** ** The login page ([Login.tsx]) *)

Module Login.

Record State := {
  email : string;
  password : string;
  error : string;
  loading : bool
}.

Definition initial : State :=
  {| email := ""; password := ""; error := ""; loading := false |}.

Definition setError (v : string) (st : State) : State :=
  {| email := email st; password := password st; error := v;
     loading := loading st |}.

Definition setLoading (v : bool) (st : State) : State :=
  {| email := email st; password := password st; error := error st;
     loading := v |}.

(** [URLSearchParams], as the list of its (name, value) pairs, and
    [searchParams.has(name)]. *)
Definition has (searchParams : list (string * string)) (name : string) : bool :=
  existsb (fun p => String.eqb (fst p) name) searchParams.

(** The answer of [supabase.auth.signInWithPassword]: whether
    [data.session] is there, and [error] ([null] or its message). *)
Record SignIn := { session : bool; loginError : option string }.

(** What the handler asks of its collaborators. *)
Inductive Effect :=
| SignInWithPassword (email password : string)
| Navigate (path : string).

(** [handleLogin]: the state it leaves and what it asked for, in order. *)
Definition handleLogin
  (searchParams : list (string * string)) (auth : string → string → SignIn)
  (st : State) : State * list Effect :=
  let st := setError "" st in
  if negb (has searchParams "admin") then
    (setError "Access denied. Invalid URL." st, [])
  else
    let st := setLoading true st in
    let answer := auth (email st) (password st) in
    let request := SignInWithPassword (email st) (password st) in
    let st := setLoading false st in
    match loginError answer with
    | Some message => (setError message st, [request])
    | None =>
        if session answer then (st, [request; Navigate "/dashboard"])
        else (st, [request])
    end.

End Login.

(** ** The theme ([ThemeContext.tsx], [ThemeToggle.tsx]) *)

Module Theme.

(** [type Theme = 'light' | 'dark'], held as the string the code compares:
    the value read from [localStorage] is cast, not checked. *)
Record Colors := {
  bg : string;
  cardBg : string;
  border : string;
  text : string;
  textSecondary : string;
  statsBg : string;
  filterBg : string;
  inputBg : string
}.

(** What the provider touches outside React: [localStorage] and the style
    of [document.body]. *)
Record Page := {
  localStorage : gmap string string;
  backgroundColor : string;
  color : string
}.

(** The initial state: [(localStorage.getItem('theme') as Theme) || 'light']. *)
Definition initialTheme (page : Page) : string :=
  match localStorage page !! "theme"%string with
  | Some stored => if JsString.truthy stored then stored else "light"
  | None => "light"
  end.

(** The effect on [theme]. *)
Definition useEffect_theme (theme : string) (page : Page) : Page := {|
  localStorage := <["theme"%string := theme]> (localStorage page);
  backgroundColor := if String.eqb theme "dark" then "#1a1a1a" else "#efefef";
  color := if String.eqb theme "dark" then "#efefef" else "#000000"
|}.

Definition toggleTheme (prev : string) : string :=
  if String.eqb prev "light" then "dark" else "light".

Definition colors (theme : string) : Colors := {|
  bg := if String.eqb theme "dark" then "#1a1a1a" else "#efefef";
  cardBg := if String.eqb theme "dark" then "#2d2d2d" else "#efefef";
  border := if String.eqb theme "dark" then "#444" else "#ccc";
  text := if String.eqb theme "dark" then "#efefef" else "#000000";
  textSecondary := if String.eqb theme "dark" then "#aaa" else "#666";
  statsBg := if String.eqb theme "dark" then "#2d2d2d" else "#f8f9fa";
  filterBg := if String.eqb theme "dark" then "#2d2d2d" else "#f8f9fa";
  inputBg := if String.eqb theme "dark" then "#2d2d2d" else "#efefef"
|}.

(** [ThemeToggle]: the button's [title]. *)
Definition title (theme : string) : string :=
  ("Switch to " +:+ (if String.eqb theme "light" then "dark" else "light")
   +:+ " mode")%string.

End Theme.

(** ** The specification's vocabulary *)

Module Spec.

(** [k] is the ceiling of [a / b]: the least integer with [a <= b * k]. *)
Definition is_ceiling (k a b : Z) : Prop := b * (k - 1) < a ≤ b * k.

(** [clamp(n, lo, hi)] *)
Definition clamp (n lo hi : Z) : Z :=
  if n <? lo then lo else if hi <? n then hi else n.

(** The elements of [l] at the zero-based offsets [a] (included) through
    [b] (excluded). *)
Definition records_between {A} (l : list A) (a b : Z) : list A :=
  take (Z.to_nat b - Z.to_nat a)%nat (drop (Z.to_nat a) l).

(** The page numbers [1 .. n]. *)
Definition pages (n : Z) : list Z := map Z.of_nat (seq 1 (Z.to_nat n)).

(** A set-valued field contains a label. *)
Definition contains (field : list string) (label : string) : Prop :=
  label ∈ field.

(** The number of records whose field contains [label]. *)
Definition records_with
  (field : Dashboard.Survey → list string) (label : string)
  (data : list Dashboard.Survey) : nat :=
  length (List.filter (fun s => bool_decide (label ∈ field s)) data).

(** The number of (record, position) pairs at which [label] occurs. *)
Definition occurrences
  (field : Dashboard.Survey → list string) (label : string)
  (data : list Dashboard.Survey) : nat :=
  length (List.filter (fun l => bool_decide (l = label)) (concat (map field data))).

(** A stats table gives [label] the count [n]; a label that was never
    counted has no entry. *)
Definition table_entry (n : nat) : option JsObject.Value :=
  if (n =? 0)%nat then None else Some (JsObject.Number n).

(** Case-insensitively, [term] is a substring of [field]. *)
Definition ci_substring `{JsString.Runtime} (term field : string) : Prop :=
  JsString.substring_of (JsString.toLowerCase term) (JsString.toLowerCase field).

(** The three predicates of the filter engine. *)
Definition topic_ok (topicFilter : string) (s : Dashboard.Survey) : Prop :=
  topicFilter = "all" ∨ contains (Dashboard.topics s) topicFilter.

Definition format_ok (formatFilter : string) (s : Dashboard.Survey) : Prop :=
  formatFilter = "all" ∨ contains (Dashboard.podcast_formats s) formatFilter.

Definition search_ok `{JsString.Runtime} (searchTerm : string)
  (s : Dashboard.Survey) : Prop :=
  searchTerm = ""
  ∨ ci_substring searchTerm (Dashboard.name s)
  ∨ ci_substring searchTerm (Dashboard.description s)
  ∨ ∃ guest, Dashboard.suggested_guest s = Some guest
             ∧ ci_substring searchTerm guest.

(** The event changes a filter input or replaces the record collection. *)
Definition changes_inputs (st : Dashboard.State) (ev : Dashboard.Event) : Prop :=
  match ev with
  | Dashboard.TopicFilterChanged v => v ≠ Dashboard.topicFilter st
  | Dashboard.FormatFilterChanged v => v ≠ Dashboard.formatFilter st
  | Dashboard.SearchTermChanged v => v ≠ Dashboard.searchTerm st
  | Dashboard.ClearFilters =>
      Dashboard.topicFilter st ≠ "all"
      ∨ Dashboard.formatFilter st ≠ "all"
      ∨ Dashboard.searchTerm st ≠ ""
  | Dashboard.Fetched (Dashboard.StoreOk _) => True
  | Dashboard.DeleteSelected _ true (Dashboard.StoreOk _) => True
  | _ => False
  end.

(** [l1] is [l2] with some elements left out, the others in their order. *)
Inductive subsequence {A} : list A → list A → Prop :=
| subsequence_nil : subsequence [] []
| subsequence_keep x l1 l2 : subsequence l1 l2 → subsequence (x :: l1) (x :: l2)
| subsequence_drop x l1 l2 : subsequence l1 l2 → subsequence l1 (x :: l2).

(** The three tests of the filter engine as one callback. *)
Definition passes `{JsString.Runtime}
  (topicFilter formatFilter searchTerm : string) (s : Dashboard.Survey) : bool :=
  (String.eqb topicFilter "all"
   || JsArray.includes (Dashboard.topics s) topicFilter)
  && (String.eqb formatFilter "all"
      || JsArray.includes (Dashboard.podcast_formats s) formatFilter)
  && (negb (JsString.truthy searchTerm)
      || Dashboard.search_match (JsString.toLowerCase searchTerm) s).

(** The filtered view is the filter of the current records and inputs. *)
Definition view_consistent `{JsString.Runtime} (st : Dashboard.State) : Prop :=
  Dashboard.filteredSurveys st
  = Dashboard.applyFilters_filtered (Dashboard.surveys st)
      (Dashboard.topicFilter st) (Dashboard.formatFilter st)
      (Dashboard.searchTerm st).

(** The page number points at a page that exists (page 1 when the view is
    empty). *)
Definition page_in_range (st : Dashboard.State) : Prop :=
  1 ≤ Dashboard.currentPage st ≤ Z.max (Dashboard.totalPages st) 1.

(** The number a stored value stands for: a string is no count. *)
Definition count_of (v : JsObject.Value) : nat :=
  match v with
  | JsObject.Number n => n
  | JsObject.Text _ => 0%nat
  end.

(** The sum of the counts of a stats table. *)
Definition total_count (stats : gmap string JsObject.Value) : nat :=
  map_fold (fun _ v acc => (count_of v + acc)%nat) 0%nat stats.

(** The labels under which [{}] can hold an own property: all but
    "__proto__". *)
Definition own_keys (labels : list string) : list string :=
  List.filter (fun l => negb (String.eqb l "__proto__")) labels.

(** The kinds of values a stats table holds: a number under an ordinary
    key, a non-empty string under a key that names an inherited property. *)
Definition well_kinded (stats : gmap string JsObject.Value) : Prop :=
  ∀ key v, stats !! key = Some v →
    match v with
    | JsObject.Number _ => JsObject.ordinary key = true
    | JsObject.Text s => JsObject.ordinary key = false ∧ s ≠ ""%string
    end.

(** What a table holds, after [k] increments, under a key that reads
    [text] from the prototype: nothing before the first, then [text] with
    one "1" per increment. *)
Definition text_entry (text : string) (k : nat) : option JsObject.Value :=
  match k with
  | O => None
  | S _ => Some (JsObject.Text (text +:+ JsObject.ones k))
  end.

(** Every element of [l] is an element of [vocabulary]. *)
Definition drawn_from (vocabulary l : list string) : Prop :=
  ∀ x, x ∈ l → x ∈ vocabulary.

(** A row the form may send: topics and formats are non-empty, without
    repetition, and drawn from the variant's vocabularies. *)
Definition well_formed_row (v : SurveyForm.Variant) (row : SurveyForm.Row.t)
  : Prop :=
  SurveyForm.Row.topics row ≠ []
  ∧ SurveyForm.Row.podcast_formats row ≠ []
  ∧ NoDup (SurveyForm.Row.topics row)
  ∧ NoDup (SurveyForm.Row.podcast_formats row)
  ∧ drawn_from (SurveyForm.TOPICS v) (SurveyForm.Row.topics row)
  ∧ drawn_from (SurveyForm.PODCAST_FORMATS v) (SurveyForm.Row.podcast_formats row).

End Spec.

(** ** Sample data *)

Module Sample.

Definition ana : Dashboard.Survey := {|
  Dashboard.id := "a1"; Dashboard.name := "Ana";
  Dashboard.topics := ["Technology"; "Science"];
  Dashboard.description := "Compilers and proof assistants";
  Dashboard.podcast_formats := ["Interview"];
  Dashboard.suggested_guest := Some "Grace Hopper";
  Dashboard.created_at := "2024-05-02T10:00:00Z"
|}.

Definition anonymous : Dashboard.Survey := {|
  Dashboard.id := "b2"; Dashboard.name := "";
  Dashboard.topics := ["Business"];
  Dashboard.description := "How startups hire";
  Dashboard.podcast_formats := ["Debate"; "Interview"];
  Dashboard.suggested_guest := None;
  Dashboard.created_at := "2024-05-01T09:30:00Z"
|}.

(** A row whose [topics] array lists one label twice. *)
Definition repeated : Dashboard.Survey := {|
  Dashboard.id := "c3"; Dashboard.name := "Cy";
  Dashboard.topics := ["Technology"; "Technology"];
  Dashboard.description := "";
  Dashboard.podcast_formats := ["Comedy"];
  Dashboard.suggested_guest := None;
  Dashboard.created_at := "2024-04-30T08:00:00Z"
|}.

(** A row whose [topics] name two properties of [Object.prototype]. *)
Definition inherited_names : Dashboard.Survey := {|
  Dashboard.id := "d4"; Dashboard.name := "Di";
  Dashboard.topics := ["constructor"; "__proto__"; "Science"];
  Dashboard.description := "";
  Dashboard.podcast_formats := ["Interview"];
  Dashboard.suggested_guest := None;
  Dashboard.created_at := "2024-04-29T08:00:00Z"
|}.

(** The dashboard after the two records were fetched, on page 3 (a stale
    page number), with one record marked for deletion. *)
Definition loaded : Dashboard.State := {|
  Dashboard.surveys := [ana; anonymous]; Dashboard.surveys_ref := 1;
  Dashboard.filteredSurveys := [ana; anonymous]; Dashboard.loading := false;
  Dashboard.topicFilter := "all"; Dashboard.formatFilter := "all";
  Dashboard.searchTerm := "";
  Dashboard.topicStats := ∅; Dashboard.formatStats := ∅;
  Dashboard.currentPage := 3; Dashboard.deleteItems := ["b2"]
|}.

(** The same dashboard while the user searches for "GRACE". *)
Definition searching : Dashboard.State := Dashboard.setSearchTerm "GRACE" loaded.

(** A form with no topic ticked, and a complete one. *)
Definition no_topic : SurveyForm.State := {|
  SurveyForm.formData := {|
    SurveyForm.name := "Ana"; SurveyForm.topics := [];
    SurveyForm.description := ""; SurveyForm.podcast_formats := ["Interview"];
    SurveyForm.suggested_guest := "" |};
  SurveyForm.loading := false; SurveyForm.success := false;
  SurveyForm.error := ""
|}.

Definition complete : SurveyForm.State := {|
  SurveyForm.formData := {|
    SurveyForm.name := ""; SurveyForm.topics := ["Science"];
    SurveyForm.description := "Black holes";
    SurveyForm.podcast_formats := ["Interview"];
    SurveyForm.suggested_guest := "" |};
  SurveyForm.loading := false; SurveyForm.success := false;
  SurveyForm.error := ""
|}.

(** Record number [i] of a numbered collection, with the given topics. *)
Definition numbered (topics : list string) (i : nat) : Dashboard.Survey := {|
  Dashboard.id := String (Ascii.ascii_of_nat (65 + i)) "";
  Dashboard.name := ""; Dashboard.topics := topics;
  Dashboard.description := ""; Dashboard.podcast_formats := ["Interview"];
  Dashboard.suggested_guest := None; Dashboard.created_at := ""
|}.

(** 25 records, fetched into the initial dashboard. *)
Definition twenty_five : list Dashboard.Survey :=
  map (numbered ["Science"]) (seq 0 25).

(** 12 records of which the first 7 have the topic "Technology". *)
Definition twelve : list Dashboard.Survey :=
  map (numbered ["Technology"; "Science"]) (seq 0 7)
  ++ map (numbered ["Business"]) (seq 7 5).

Definition fetched (data : list Dashboard.Survey) : Dashboard.State :=
  @Dashboard.step JsString.ascii_runtime Dashboard.initial
    (Dashboard.Fetched (Dashboard.StoreOk data)).

(** A record store that accepts every row. *)
Definition accepting (_ : SurveyForm.Row.t) : SurveyForm.InsertOutcome :=
  SurveyForm.Inserted.

(** A session on the dashboard: fetch the 25 records, jump to page 99, mark
    a row, search for a word no record has. *)
Definition browsing : list Dashboard.Event :=
  [Dashboard.Fetched (Dashboard.StoreOk twenty_five);
   Dashboard.GoToPage 99;
   Dashboard.ToggleDeleteItem "A";
   Dashboard.SearchTermChanged "zebra"].

(** A session on the English form: "Science" ticked, "Technology" ticked
    and unticked, "Interview" ticked, a name typed, then two submissions
    (the second one on the form the first one has reset). *)
Definition filling : list SurveyForm.Event :=
  [SurveyForm.TopicToggled "Science";
   SurveyForm.TopicToggled "Technology";
   SurveyForm.TopicToggled "Technology";
   SurveyForm.FormatToggled "Interview";
   SurveyForm.NameChanged "Ana";
   SurveyForm.Submitted accepting;
   SurveyForm.Submitted accepting].

End Sample.

(** ** Facts about the runtime functions *)

Lemma startsWith_spec (t s : string) :
  JsString.startsWith s t = true ↔ ∃ post, s = (t +:+ post)%string.
Proof.
  revert s. induction t as [|b t IH]; intros s; simpl.
  - split; [intros _; by exists s | done].
  - destruct s as [|a s].
    + split; [done | intros [post Hp]; discriminate Hp].
    + destruct (Ascii.eqb_spec a b) as [->|Hne].
      * rewrite IH. split; intros [post Hp]; exists post.
        -- by rewrite Hp.
        -- by injection Hp.
      * split; [done | intros [post Hp]; injection Hp; congruence].
Qed.

Lemma includes_spec (s t : string) :
  JsString.includes s t = true ↔ JsString.substring_of t s.
Proof.
  unfold JsString.substring_of.
  induction s as [|a s IH]; simpl; rewrite orb_true_iff, startsWith_spec.
  - split.
    + intros [[post Hp]|]; [by exists ""%string, post | done].
    + intros (pre & post & Hp). left. destruct pre; [by exists post | done].
  - rewrite IH. split.
    + intros [[post Hp]|(pre & post & Hp)].
      * by exists ""%string, post.
      * exists (String a pre), post. simpl. by rewrite Hp.
    + intros (pre & post & Hp). destruct pre as [|c pre]; simpl in Hp.
      * left. by exists post.
      * right. exists pre, post. by injection Hp.
Qed.

Lemma includes_empty_l (t : string) :
  t ≠ ""%string → JsString.includes "" t = false.
Proof. by destruct t. Qed.

Lemma truthy_spec (s : string) : JsString.truthy s = true ↔ s ≠ ""%string.
Proof. by destruct s. Qed.

Lemma array_includes_spec (xs : list string) (x : string) :
  JsArray.includes xs x = true ↔ x ∈ xs.
Proof.
  unfold JsArray.includes. rewrite existsb_exists, list_elem_of_In. split.
  - intros (y & Hy & Heq). apply String.eqb_eq in Heq. by subst.
  - intros Hin. exists x. split; [done | apply String.eqb_refl].
Qed.

Lemma Math_ceil_div_ceiling (a b : Z) :
  0 < b → Spec.is_ceiling (Math_ceil_div a b) a b.
Proof.
  intros Hb. unfold Spec.is_ceiling, Math_ceil_div.
  pose proof (Z.div_mod (- a) b) as Hdm.
  pose proof (Z.mod_pos_bound (- a) b Hb) as Hmod. nia.
Qed.

Lemma filter_subsequence {A} (f : A → bool) (l : list A) :
  Spec.subsequence (List.filter f l) l.
Proof.
  induction l as [|x l IH]; simpl; [constructor|].
  destruct (f x); by constructor.
Qed.

Lemma subsequence_refl {A} (l : list A) : Spec.subsequence l l.
Proof. induction l; by constructor. Qed.

Lemma subsequence_trans {A} (l1 l2 l3 : list A) :
  Spec.subsequence l1 l2 → Spec.subsequence l2 l3 → Spec.subsequence l1 l3.
Proof.
  intros H12 H23. revert l1 H12.
  induction H23 as [|x l2 l3 H23 IH|x l2 l3 H23 IH]; intros l1 H12.
  - done.
  - inversion H12; subst; constructor; by apply IH.
  - constructor. by apply IH.
Qed.

Lemma subsequence_elem_of {A} (l1 l2 : list A) (x : A) :
  Spec.subsequence l1 l2 → x ∈ l1 → x ∈ l2.
Proof.
  induction 1 as [|y l1 l2 _ IH|y l1 l2 _ IH]; [done| |].
  - rewrite !elem_of_cons. intros [->|Hin]; [by left | right; by apply IH].
  - intros Hin. apply elem_of_cons. right. by apply IH.
Qed.

Lemma slice_nonneg {A} (l : list A) (a b : Z) :
  0 ≤ a → 0 ≤ b →
  JsArray.slice l a b
  = Spec.records_between l a (Z.min b (Z.of_nat (length l))).
Proof.
  intros Ha Hb. unfold JsArray.slice, Spec.records_between, JsArray.relative.
  destruct (Z.ltb_spec a 0) as [|_]; [lia|].
  destruct (Z.ltb_spec b 0) as [|_]; [lia|].
  destruct (Z.le_gt_cases a (Z.of_nat (length l))) as [Hle|Hgt].
  - rewrite (Z.min_l a) by lia. f_equal. lia.
  - rewrite !drop_ge by lia. by rewrite !take_nil.
Qed.

Lemma records_between_lookup {A} (l : list A) (a b : Z) (i : nat) :
  0 ≤ a → b ≤ Z.of_nat (length l) →
  Spec.records_between l a b !! i
  = if bool_decide (a + Z.of_nat i < b) then l !! (Z.to_nat a + i)%nat else None.
Proof.
  intros Ha Hb. unfold Spec.records_between. case_bool_decide as Hlt.
  - rewrite lookup_take_lt by lia. by rewrite lookup_drop.
  - apply lookup_ge_None. rewrite length_take. lia.
Qed.

Lemma records_between_chunk {A} (l : list A) (n i : nat) :
  Spec.records_between l (Z.of_nat (i * n))
    (Z.min (Z.of_nat (i * n) + Z.of_nat n) (Z.of_nat (length l)))
  = take n (drop (i * n) l).
Proof.
  unfold Spec.records_between. rewrite Nat2Z.id.
  destruct (Z.le_gt_cases (Z.of_nat (i * n) + Z.of_nat n) (Z.of_nat (length l))).
  - f_equal. lia.
  - rewrite (take_ge (drop _ _) n) by (rewrite length_drop; lia).
    apply take_ge. rewrite length_drop. lia.
Qed.

Lemma concat_chunks {A} (l : list A) (n k : nat) :
  concat (map (fun i => take n (drop (i * n) l)) (seq 0 k)) = take (k * n) l.
Proof.
  induction k as [|k IH]; [done|].
  rewrite seq_S, map_app, concat_app, IH. simpl. rewrite app_nil_r.
  rewrite take_take_drop. f_equal. lia.
Qed.

(** The slice shown on page [i + 1]. *)
Lemma currentSurveys_page (st : Dashboard.State) (i : nat) :
  Dashboard.currentSurveys (Dashboard.setCurrentPage (Z.of_nat (S i)) st)
  = take 10 (drop (i * 10) (Dashboard.filteredSurveys st)).
Proof.
  unfold Dashboard.currentSurveys, Dashboard.endIndex, Dashboard.startIndex,
    Dashboard.itemsPerPage. simpl Dashboard.currentPage.
  simpl Dashboard.filteredSurveys.
  rewrite slice_nonneg by lia.
  replace ((Z.of_nat (S i) - 1) * 10) with (Z.of_nat (i * 10)) by lia.
  apply (records_between_chunk _ 10 i).
Qed.

(** ** Paginator *)

Lemma totalPages_bounds (st : Dashboard.State) :
  10 * (Dashboard.totalPages st - 1)
  < Z.of_nat (length (Dashboard.filteredSurveys st))
  ≤ 10 * Dashboard.totalPages st.
Proof.
  apply (Math_ceil_div_ceiling
           (Z.of_nat (length (Dashboard.filteredSurveys st))) 10). lia.
Qed.

(** C1, as the code has it: [totalPages] is the ceiling of the filtered
    collection's length divided by [itemsPerPage] (10), without a lower
    bound of 1: it is at least 1 exactly when the filtered collection is
    not empty, and it is 0 for the empty one. *)
Theorem totalPages_ceiling (st : Dashboard.State) :
  Dashboard.itemsPerPage = 10
  ∧ Spec.is_ceiling (Dashboard.totalPages st)
      (Z.of_nat (length (Dashboard.filteredSurveys st))) Dashboard.itemsPerPage
  ∧ (1 ≤ Dashboard.totalPages st ↔ Dashboard.filteredSurveys st ≠ [])
  ∧ (Dashboard.totalPages st = 0 ↔ Dashboard.filteredSurveys st = []).
Proof.
  pose proof (totalPages_bounds st) as Hc.
  split; [done|]. split; [exact Hc|].
  destruct (Dashboard.filteredSurveys st) as [|s l]; simpl length in Hc.
  - split; split; intros; try done; lia.
  - split; split; intros; try done; lia.
Qed.

(** C1 fails as stated: the initial dashboard has an empty filtered
    collection, the ceiling of 0 / 10 is 0, and [totalPages] is that 0, not
    the maximum of it and 1. *)
Lemma totalPages_empty_is_not_1 :
  Dashboard.filteredSurveys Dashboard.initial = []
  ∧ Spec.is_ceiling 0
      (Z.of_nat (length (Dashboard.filteredSurveys Dashboard.initial)))
      Dashboard.itemsPerPage
  ∧ Dashboard.totalPages Dashboard.initial ≠ Z.max 0 1.
Proof. by vm_compute. Qed.

(** The page buttons are on screen only over a non-empty filtered
    collection with more than one page. *)
Lemma paginationControls_rendered_spec (st : Dashboard.State) :
  Dashboard.paginationControls_rendered st = true
  ↔ Dashboard.filteredSurveys st ≠ [] ∧ 1 < Dashboard.totalPages st.
Proof.
  unfold Dashboard.paginationControls_rendered.
  rewrite andb_true_iff, negb_true_iff, Nat.eqb_neq, Z.ltb_lt.
  destruct (Dashboard.filteredSurveys st); simpl; intuition (done || lia).
Qed.

(** C2, as the code has it: for every integer [n] and every non-empty
    filtered collection, [goToPage(n)] sets [currentPage] to the clamp of
    [n] into [1, totalPages], so that [1 <= currentPage <= totalPages]
    afterwards; [goToPage] is a total function, it never fails. *)
Theorem goToPage_clamps (n : Z) (st : Dashboard.State) :
  Dashboard.filteredSurveys st ≠ [] →
  Dashboard.currentPage (Dashboard.goToPage n st)
  = Spec.clamp n 1 (Dashboard.totalPages st)
  ∧ 1 ≤ Dashboard.currentPage (Dashboard.goToPage n st)
      ≤ Dashboard.totalPages (Dashboard.goToPage n st).
Proof.
  intros Hne. pose proof (totalPages_bounds st) as Hc.
  assert (0 < Z.of_nat (length (Dashboard.filteredSurveys st)))
    by (destruct (Dashboard.filteredSurveys st); [done | simpl; lia]).
  unfold Dashboard.goToPage, Spec.clamp.
  change (Dashboard.totalPages (Dashboard.setCurrentPage _ st))
    with (Dashboard.totalPages st).
  simpl Dashboard.currentPage.
  destruct (Z.ltb_spec n 1), (Z.ltb_spec (Dashboard.totalPages st) n); lia.
Qed.

(** C2 fails as stated on the empty filtered collection: there
    [totalPages] is 0 and [goToPage(1)] sets [currentPage] to 0. *)
Lemma goToPage_empty_leaves_range :
  Dashboard.filteredSurveys Dashboard.initial = []
  ∧ Dashboard.currentPage (Dashboard.goToPage 1 Dashboard.initial) = 0
  ∧ ¬ (1 ≤ Dashboard.currentPage (Dashboard.goToPage 1 Dashboard.initial)).
Proof. by vm_compute. Qed.

(** C7: with [itemsPerPage = 10] and a filtered collection of length [L],
    the slice of page [p] is the records at the zero-based offsets
    [(p-1)*10] through [min(p*10, L)] exclusive, and the slices of the
    pages 1 to [totalPages], concatenated, are the filtered collection:
    no record is repeated and none is omitted. *)
Theorem page_slices_partition (st : Dashboard.State) (p : positive) :
  Dashboard.currentSurveys (Dashboard.setCurrentPage (Z.pos p) st)
  = Spec.records_between (Dashboard.filteredSurveys st)
      ((Z.pos p - 1) * 10)
      (Z.min (Z.pos p * 10) (Z.of_nat (length (Dashboard.filteredSurveys st))))
  ∧ concat (map (fun q => Dashboard.currentSurveys (Dashboard.setCurrentPage q st))
                (Spec.pages (Dashboard.totalPages st)))
    = Dashboard.filteredSurveys st.
Proof.
  split.
  - unfold Dashboard.currentSurveys, Dashboard.endIndex, Dashboard.startIndex,
      Dashboard.itemsPerPage.
    simpl Dashboard.currentPage. simpl Dashboard.filteredSurveys.
    rewrite slice_nonneg by lia. f_equal. lia.
  - unfold Spec.pages. rewrite map_map, <- seq_shift, map_map.
    rewrite (map_ext _ (fun i => take 10 (drop (i * 10) (Dashboard.filteredSurveys st))))
      by (intros i; apply currentSurveys_page).
    rewrite concat_chunks. apply take_ge.
    pose proof (totalPages_bounds st). lia.
Qed.

(** ** Filter engine *)

Lemma substring_of_empty (t : string) :
  JsString.substring_of t "" → t = ""%string.
Proof.
  intros (pre & post & Hp). destruct pre; [|done]. by destruct t.
Qed.

Lemma cond_filter_elem_of {A} (c : bool) (f : A → bool) (l : list A) (x : A) :
  x ∈ (if c then List.filter f l else l) ↔ x ∈ l ∧ (c = false ∨ f x = true).
Proof.
  destruct c.
  - rewrite !list_elem_of_In, filter_In. split.
    + intros [Hin Hf]. split; [done | by right].
    + intros [Hin [Hc|Hf]]; [discriminate Hc | done].
  - split; [intros Hin; split; [done | by left] | by intros [Hin _]].
Qed.

Lemma cond_filter_subsequence {A} (c : bool) (f : A → bool) (l : list A) :
  Spec.subsequence (if c then List.filter f l else l) l.
Proof. destruct c; [apply filter_subsequence | apply subsequence_refl]. Qed.

Section FilterEngine.
Context `{JsString.Runtime}.

Lemma search_match_spec (searchTerm : string) (s : Dashboard.Survey) :
  searchTerm ≠ ""%string →
  Dashboard.search_match (JsString.toLowerCase searchTerm) s = true
  ↔ Spec.ci_substring searchTerm (Dashboard.name s)
    ∨ Spec.ci_substring searchTerm (Dashboard.description s)
    ∨ ∃ guest, Dashboard.suggested_guest s = Some guest
               ∧ Spec.ci_substring searchTerm guest.
Proof.
  intros Hterm. unfold Dashboard.search_match, Spec.ci_substring.
  rewrite <- orb_assoc, !orb_true_iff, !includes_spec.
  do 2 apply or_iff_compat_l.
  destruct (Dashboard.suggested_guest s) as [g|].
  - rewrite andb_true_iff, includes_spec, truthy_spec. split.
    + intros [_ Hg]. by exists g.
    + intros (g' & [= <-] & Hg). split; [|done].
      intros ->. apply Hterm, JsString.toLowerCase_empty.
      apply substring_of_empty.
      by rewrite <- (proj2 (JsString.toLowerCase_empty ""%string) eq_refl).
  - split; [done | by intros (g & ? & _)].
Qed.

Lemma applyFilters_filtered_subsequence
  (surveys : list Dashboard.Survey) (topicFilter formatFilter searchTerm : string) :
  Spec.subsequence
    (Dashboard.applyFilters_filtered surveys topicFilter formatFilter searchTerm)
    surveys.
Proof.
  unfold Dashboard.applyFilters_filtered.
  eapply subsequence_trans; [apply cond_filter_subsequence|].
  eapply subsequence_trans; apply cond_filter_subsequence.
Qed.

(** C3: a record is in the filtered result exactly when it is in the
    collection and the three predicates hold: the topic filter is "all" or
    one of the record's topics, the format filter is "all" or one of the
    record's formats, and the search term is empty or, case-insensitively,
    a substring of the name, of the description, or of the suggested guest
    when there is one. *)
Theorem applyFilters_keeps_exactly (st : Dashboard.State) (s : Dashboard.Survey) :
  s ∈ Dashboard.filteredSurveys (Dashboard.applyFilters st)
  ↔ s ∈ Dashboard.surveys st
    ∧ Spec.topic_ok (Dashboard.topicFilter st) s
    ∧ Spec.format_ok (Dashboard.formatFilter st) s
    ∧ Spec.search_ok (Dashboard.searchTerm st) s.
Proof.
  unfold Dashboard.applyFilters. simpl Dashboard.filteredSurveys.
  unfold Dashboard.applyFilters_filtered, Spec.topic_ok, Spec.format_ok,
    Spec.search_ok, Spec.contains.
  rewrite !cond_filter_elem_of, !negb_false_iff, !String.eqb_eq,
    !array_includes_spec.
  destruct (decide (Dashboard.searchTerm st = ""%string)) as [Hterm|Hterm].
  - rewrite Hterm. simpl. intuition congruence.
  - rewrite search_match_spec by done.
    apply truthy_spec in Hterm as Htruthy. rewrite Htruthy.
    intuition congruence.
Qed.

(** C4: the filtered result is a subsequence of the record collection
    (every surviving record occurs in the collection, and the survivors
    keep their relative order), and the unconstrained filter state
    ("all", "all", empty search term) returns the collection unchanged. *)
Theorem applyFilters_subsequence (st : Dashboard.State) :
  Spec.subsequence (Dashboard.filteredSurveys (Dashboard.applyFilters st))
                   (Dashboard.surveys st)
  ∧ (∀ s, s ∈ Dashboard.filteredSurveys (Dashboard.applyFilters st)
          → s ∈ Dashboard.surveys st)
  ∧ Dashboard.filteredSurveys
      (Dashboard.applyFilters
         (Dashboard.setSearchTerm ""
            (Dashboard.setFormatFilter "all" (Dashboard.setTopicFilter "all" st))))
    = Dashboard.surveys st.
Proof.
  split; [apply applyFilters_filtered_subsequence|]. split; [|done].
  intros s. apply subsequence_elem_of, applyFilters_filtered_subsequence.
Qed.

End FilterEngine.

(** C2 at a dashboard with two filtered records: a request for page 5
    lands on page 1, the only page. *)
Lemma goToPage_clamps_witness :
  Dashboard.currentPage (Dashboard.goToPage 5 Sample.loaded)
  = Spec.clamp 5 1 (Dashboard.totalPages Sample.loaded)
  ∧ 1 ≤ Dashboard.currentPage (Dashboard.goToPage 5 Sample.loaded)
      ≤ Dashboard.totalPages (Dashboard.goToPage 5 Sample.loaded).
Proof. apply (goToPage_clamps 5 Sample.loaded). discriminate. Defined.

(** C3 with the ASCII lower-casing: searching for "GRACE" keeps the record
    whose suggested guest is "Grace Hopper". *)
Lemma applyFilters_keeps_exactly_witness :
  Sample.ana
    ∈ Dashboard.filteredSurveys
        (@Dashboard.applyFilters JsString.ascii_runtime Sample.searching)
  ↔ Sample.ana ∈ Dashboard.surveys Sample.searching
    ∧ Spec.topic_ok (Dashboard.topicFilter Sample.searching) Sample.ana
    ∧ Spec.format_ok (Dashboard.formatFilter Sample.searching) Sample.ana
    ∧ @Spec.search_ok JsString.ascii_runtime
        (Dashboard.searchTerm Sample.searching) Sample.ana.
Proof.
  exact (@applyFilters_keeps_exactly JsString.ascii_runtime
           Sample.searching Sample.ana).
Defined.

(** ** Bulk delete *)

Lemma List_filter_decide {A} (f : A → bool) (P : A → Prop)
  `{∀ x, Decision (P x)} (l : list A) :
  (∀ x, f x = true ↔ P x) → List.filter f l = filter P l.
Proof.
  intros Hf. induction l as [|x l IH]; [done|]. simpl.
  rewrite filter_cons, IH. destruct (f x) eqn:Hx; case_decide as HP.
  - done.
  - by apply Hf in Hx.
  - apply Hf in HP. congruence.
  - done.
Qed.

Lemma not_includes_spec (ids : list string) (i : string) :
  negb (JsArray.includes ids i) = true ↔ i ∉ ids.
Proof.
  rewrite negb_true_iff, <- not_true_iff_false. by rewrite array_includes_spec.
Qed.

(** C5: when the store reports success for the ids [ids], exactly the
    records whose id is in [ids] leave [surveys] (the others stay, in their
    order) and the selection becomes empty; when the store reports an
    error, the state, and with it [surveys] and the selection, is left as
    it was. *)
Theorem handleDeleteSurvey_outcome (ids : list string) (st : Dashboard.State) :
  (Dashboard.surveys (Dashboard.handleDeleteSurvey ids true (Dashboard.StoreOk ()) st)
   = filter (fun s => Dashboard.id s ∉ ids) (Dashboard.surveys st)
   ∧ Spec.subsequence
       (Dashboard.surveys
          (Dashboard.handleDeleteSurvey ids true (Dashboard.StoreOk ()) st))
       (Dashboard.surveys st)
   ∧ (∀ s, s ∈ Dashboard.surveys
                 (Dashboard.handleDeleteSurvey ids true (Dashboard.StoreOk ()) st)
           ↔ s ∈ Dashboard.surveys st ∧ Dashboard.id s ∉ ids)
   ∧ Dashboard.deleteItems
       (Dashboard.handleDeleteSurvey ids true (Dashboard.StoreOk ()) st) = [])
  ∧ (∀ message,
       Dashboard.handleDeleteSurvey ids true (Dashboard.StoreError message) st = st).
Proof.
  split; [|done]. simpl.
  split; [|split; [apply filter_subsequence|split; [|done]]].
  - apply List_filter_decide. intros s. apply not_includes_spec.
  - intros s. rewrite list_elem_of_In, filter_In, <- list_elem_of_In.
    by rewrite not_includes_spec.
Qed.

(** ** Aggregator *)

Lemma ordinary_not_proto (label : string) :
  JsObject.ordinary label = true → String.eqb label "__proto__" = false.
Proof.
  unfold JsObject.ordinary, JsObject.inherited.
  by destruct (String.eqb label "__proto__").
Qed.

Lemma count_label_lookup_ne (stats : gmap string JsObject.Value) (x label : string) :
  x ≠ label → Dashboard.count_label stats x !! label = stats !! label.
Proof.
  intros Hne. unfold Dashboard.count_label, JsObject.set.
  destruct (String.eqb x "__proto__"); [done | by apply lookup_insert_ne].
Qed.

Lemma count_label_lookup_eq (stats : gmap string JsObject.Value) (label : string) :
  String.eqb label "__proto__" = false →
  Dashboard.count_label stats label !! label
  = Some (JsObject.or_zero_plus_1 stats label).
Proof.
  intros Hproto. unfold Dashboard.count_label, JsObject.set.
  rewrite Hproto. apply lookup_insert_eq.
Qed.

(** A label the loop does not meet keeps what the table had for it. *)
Lemma foldl_count_label_absent (labels : list string)
  (stats : gmap string JsObject.Value) (label : string) :
  label ∉ labels → foldl Dashboard.count_label stats labels !! label = stats !! label.
Proof.
  revert stats. induction labels as [|x labels IH]; intros stats Hnot; [done|].
  apply not_elem_of_cons in Hnot as [Hne Hnot]. simpl.
  rewrite IH by done. by apply count_label_lookup_ne.
Qed.

(** One table after counting the labels of [labels] into [stats], at a label
    that names no property of [Object.prototype]. *)
Lemma foldl_count_label_lookup (labels : list string)
  (stats : gmap string JsObject.Value) (label : string) :
  JsObject.ordinary label = true →
  (∀ s, stats !! label ≠ Some (JsObject.Text s)) →
  foldl Dashboard.count_label stats labels !! label
  = match length (List.filter (fun l => bool_decide (l = label)) labels) with
    | O => stats !! label
    | S c => Some (JsObject.Number
                     (from_option Spec.count_of 0 (stats !! label) + S c))%nat
    end.
Proof.
  intros Hord. revert stats.
  induction labels as [|x labels IH]; intros stats Hnum; [done|].
  simpl foldl. simpl List.filter. destruct (decide (x = label)) as [->|Hne].
  - rewrite bool_decide_eq_true_2 by done. simpl length.
    assert (Dashboard.count_label stats label !! label
            = Some (JsObject.Number
                      (from_option Spec.count_of 0 (stats !! label) + 1)%nat))
      as Hstep.
    { rewrite count_label_lookup_eq by (by apply ordinary_not_proto).
      unfold JsObject.or_zero_plus_1, JsObject.ordinary in *.
      destruct (stats !! label) as [[n|s]|] eqn:Hl; simpl.
      - by destruct (Nat.eqb_spec n 0) as [->|].
      - by destruct (Hnum s).
      - by destruct (JsObject.inherited label). }
    rewrite IH by (intros s; rewrite Hstep; discriminate).
    rewrite Hstep. simpl. destruct (length _); do 2 f_equal; lia.
  - rewrite bool_decide_eq_false_2 by done.
    rewrite IH by (intros s; by rewrite count_label_lookup_ne).
    by rewrite count_label_lookup_ne.
Qed.

Lemma calculateStats_tables_fold (data : list Dashboard.Survey) :
  Dashboard.calculateStats_tables data
  = (foldl Dashboard.count_label ∅ (concat (map Dashboard.topics data)),
     foldl Dashboard.count_label ∅ (concat (map Dashboard.podcast_formats data))).
Proof.
  unfold Dashboard.calculateStats_tables.
  generalize (∅ : gmap string JsObject.Value) at 1 3.
  generalize (∅ : gmap string JsObject.Value).
  induction data as [|s data IH]; intros formats topics; [done|].
  simpl. rewrite IH. simpl. by rewrite !foldl_app.
Qed.

Lemma count_zero_iff (labels : list string) (label : string) :
  length (List.filter (fun l => bool_decide (l = label)) labels) = 0%nat
  ↔ label ∉ labels.
Proof.
  induction labels as [|x labels IH]; simpl.
  - split; [intros _; apply not_elem_of_nil | done].
  - rewrite not_elem_of_cons. case_bool_decide as Hx; simpl.
    + split; [done | intros [Hne _]; congruence].
    + rewrite IH. split; [intros ?; split; [congruence | done] | tauto].
Qed.

(** A table built from the empty object, at a label that is either absent
    from [labels] or an ordinary key. *)
Lemma table_lookup (labels : list string) (label : string) :
  (label ∈ labels → JsObject.ordinary label = true) →
  foldl Dashboard.count_label ∅ labels !! label
  = Spec.table_entry
      (length (List.filter (fun l => bool_decide (l = label)) labels)).
Proof.
  intros Hord. unfold Spec.table_entry.
  destruct (decide (label ∈ labels)) as [Hin|Hnot].
  - rewrite foldl_count_label_lookup;
      [|by apply Hord|intros s; by rewrite lookup_empty].
    rewrite lookup_empty. by destruct (length _).
  - rewrite foldl_count_label_absent by done.
    apply count_zero_iff in Hnot as ->. apply lookup_empty.
Qed.

Lemma elem_of_flatMap (field : Dashboard.Survey → list string)
  (data : list Dashboard.Survey) (label : string) :
  label ∈ concat (map field data) ↔ ∃ s, s ∈ data ∧ label ∈ field s.
Proof.
  rewrite list_elem_of_In, in_concat. split.
  - intros (l & Hl & Hin). apply in_map_iff in Hl as (s & <- & Hs).
    exists s. by rewrite !list_elem_of_In.
  - intros (s & Hs & Hin). exists (field s).
    rewrite in_map_iff, <- list_elem_of_In. split; [|done].
    exists s. by rewrite <- list_elem_of_In.
Qed.

(** Every label is counted once per position at which it occurs, when the
    labels of the collection are ordinary keys. *)
Lemma calculateStats_occurrences (data : list Dashboard.Survey)
  (st : Dashboard.State) (label : string) :
  (∀ s l, s ∈ data →
          l ∈ Dashboard.topics s ∨ l ∈ Dashboard.podcast_formats s →
          JsObject.ordinary l = true) →
  Dashboard.topicStats (Dashboard.calculateStats data st) !! label
  = Spec.table_entry (Spec.occurrences Dashboard.topics label data)
  ∧ Dashboard.formatStats (Dashboard.calculateStats data st) !! label
    = Spec.table_entry (Spec.occurrences Dashboard.podcast_formats label data).
Proof.
  intros Hord. unfold Dashboard.calculateStats. simpl.
  rewrite calculateStats_tables_fold. simpl. unfold Spec.occurrences.
  split; apply table_lookup; intros (s & Hs & Hin)%elem_of_flatMap;
    apply (Hord s label Hs); auto.
Qed.

Lemma count_NoDup (labels : list string) (label : string) :
  NoDup labels →
  length (List.filter (fun l => bool_decide (l = label)) labels)
  = if bool_decide (label ∈ labels) then 1%nat else 0%nat.
Proof.
  induction 1 as [|x labels Hx _ IH]; [done|]. simpl.
  destruct (decide (x = label)) as [->|Hne].
  - rewrite bool_decide_eq_true_2 by done. simpl.
    rewrite IH, bool_decide_eq_false_2 by done.
    rewrite bool_decide_eq_true_2; [done | apply elem_of_cons; by left].
  - rewrite bool_decide_eq_false_2 by done. rewrite IH.
    rewrite (bool_decide_ext (label ∈ x :: labels) (label ∈ labels)); [done|].
    rewrite elem_of_cons.
    split; [intros [Heq|Hin]; [congruence | done] | by right].
Qed.

Lemma occurrences_NoDup (field : Dashboard.Survey → list string)
  (label : string) (data : list Dashboard.Survey) :
  (∀ s, s ∈ data → NoDup (field s)) →
  Spec.occurrences field label data = Spec.records_with field label data.
Proof.
  unfold Spec.occurrences, Spec.records_with.
  induction data as [|s data IH]; intros Hnd; [done|]. simpl.
  rewrite List.filter_app, length_app, IH, count_NoDup.
  - by destruct (bool_decide (label ∈ field s)).
  - apply Hnd, elem_of_cons. by left.
  - intros s' Hs'. apply Hnd, elem_of_cons. by right.
Qed.

(** The labels of both forms' vocabularies are ordinary keys. *)
Lemma vocabulary_ordinary (v : SurveyForm.Variant) (label : string) :
  label ∈ SurveyForm.TOPICS v ∨ label ∈ SurveyForm.PODCAST_FORMATS v →
  JsObject.ordinary label = true.
Proof.
  rewrite <- elem_of_app. intros Hin.
  assert (forallb JsObject.ordinary
            (SurveyForm.TOPICS v ++ SurveyForm.PODCAST_FORMATS v) = true)
    as Hall by (by destruct v; vm_compute).
  rewrite forallb_forall in Hall. by apply Hall, list_elem_of_In.
Qed.

(** C6: over the record collections of the data model, where [topics] and
    [podcast_formats] are sets (no label twice) of vocabulary labels (keys
    that name no property of [Object.prototype]), each table gives every
    label the number of records whose field contains it, each record
    counting once for each of its labels (a label no record has gets no
    entry); on the empty collection both tables are empty. *)
Theorem calculateStats_counts (data : list Dashboard.Survey)
  (st : Dashboard.State) (label : string) :
  (∀ s, s ∈ data →
        NoDup (Dashboard.topics s) ∧ NoDup (Dashboard.podcast_formats s)) →
  (∀ s l, s ∈ data →
          l ∈ Dashboard.topics s ∨ l ∈ Dashboard.podcast_formats s →
          JsObject.ordinary l = true) →
  Dashboard.topicStats (Dashboard.calculateStats data st) !! label
  = Spec.table_entry (Spec.records_with Dashboard.topics label data)
  ∧ Dashboard.formatStats (Dashboard.calculateStats data st) !! label
    = Spec.table_entry (Spec.records_with Dashboard.podcast_formats label data)
  ∧ Dashboard.topicStats (Dashboard.calculateStats [] st) = ∅
  ∧ Dashboard.formatStats (Dashboard.calculateStats [] st) = ∅.
Proof.
  intros Hnd Hord.
  destruct (calculateStats_occurrences data st label Hord) as [Ht Hf].
  rewrite Ht, Hf, !occurrences_NoDup.
  - done.
  - intros s Hs. by apply Hnd.
  - intros s Hs. by apply Hnd.
Qed.

(** C6 on the two sample records: two of them have the format
    "Interview". *)
Lemma calculateStats_counts_witness :
  Dashboard.topicStats
    (Dashboard.calculateStats [Sample.ana; Sample.anonymous] Dashboard.initial)
    !! "Interview"%string
  = Spec.table_entry
      (Spec.records_with Dashboard.topics "Interview" [Sample.ana; Sample.anonymous])
  ∧ Dashboard.formatStats
      (Dashboard.calculateStats [Sample.ana; Sample.anonymous] Dashboard.initial)
      !! "Interview"%string
    = Spec.table_entry
        (Spec.records_with Dashboard.podcast_formats "Interview"
           [Sample.ana; Sample.anonymous])
  ∧ Dashboard.topicStats (Dashboard.calculateStats [] Dashboard.initial) = ∅
  ∧ Dashboard.formatStats (Dashboard.calculateStats [] Dashboard.initial) = ∅.
Proof.
  apply (calculateStats_counts [Sample.ana; Sample.anonymous] Dashboard.initial
           "Interview").
  - intros s Hs. apply list_elem_of_In in Hs. simpl in Hs.
    destruct Hs as [<-|[<-|[]]]; split;
      refine (bool_decide_unpack _ _); vm_compute; exact I.
  - intros s l Hs Hl. apply list_elem_of_In in Hs. simpl in Hs.
    rewrite <- elem_of_app in Hl. apply list_elem_of_In in Hl.
    destruct Hs as [<-|[<-|[]]]; simpl in Hl;
      repeat (destruct Hl as [<-|Hl]; [reflexivity|]); destruct Hl.
Defined.

Example calculateStats_on_the_samples :
  Dashboard.formatStats
    (Dashboard.calculateStats [Sample.ana; Sample.anonymous] Dashboard.initial)
    !! "Interview"%string
  = Some (JsObject.Number 2)
  ∧ Dashboard.topicStats
      (Dashboard.calculateStats [Sample.repeated] Dashboard.initial)
      !! "Technology"%string
    = Some (JsObject.Number 2)
  ∧ Dashboard.topicStats
      (Dashboard.calculateStats [Sample.inherited_names] Dashboard.initial)
      !! "constructor"%string
    = Some (JsObject.Text "function Object() { [native code] }1")
  ∧ Dashboard.topicStats
      (Dashboard.calculateStats [Sample.inherited_names] Dashboard.initial)
      !! "__proto__"%string
    = None.
Proof. by vm_compute. Qed.

(** ** View controller: a filter change resets the page *)

Section ViewController.
Context `{JsString.Runtime}.

Lemma deps_changed_setSurveys (prev next : Dashboard.State) :
  Dashboard.surveys_ref next = S (Dashboard.surveys_ref prev) →
  Dashboard.deps_changed prev next = true.
Proof.
  intros Href. unfold Dashboard.deps_changed. rewrite Href.
  destruct (Nat.eqb_spec (Dashboard.surveys_ref prev)
              (S (Dashboard.surveys_ref prev))); [lia | done].
Qed.

Lemma eqb_differs (a b : string) : a ≠ b → negb (String.eqb a b) = true.
Proof. intros Hne. by apply negb_true_iff, String.eqb_neq. Qed.

Lemma changes_inputs_deps (st : Dashboard.State) (ev : Dashboard.Event) :
  Spec.changes_inputs st ev →
  Dashboard.deps_changed st (Dashboard.handle ev st) = true.
Proof.
  destruct ev as [[data|msg]|v|v|v| | | |ids [|] [[]|msg]]; simpl; try done.
  - intros _. by apply deps_changed_setSurveys.
  - intros Hne%not_eq_sym%eqb_differs. unfold Dashboard.deps_changed. simpl.
    rewrite Hne. by rewrite orb_true_r.
  - intros Hne%not_eq_sym%eqb_differs. unfold Dashboard.deps_changed. simpl.
    rewrite Hne. by rewrite !orb_true_r.
  - intros Hne%not_eq_sym%eqb_differs. unfold Dashboard.deps_changed. simpl.
    rewrite Hne. by rewrite !orb_true_r.
  - intros Hne. unfold Dashboard.deps_changed. simpl.
    destruct Hne as [Hne|[Hne|Hne]]; apply eqb_differs in Hne; rewrite Hne;
      by rewrite !orb_true_r.
  - intros _. by apply deps_changed_setSurveys.
Qed.

(** C8: after an event that changes the topic filter, the format filter
    or the search term, or that replaces the record collection, the
    filtered view is the filter of the new inputs and [currentPage] is 1,
    whatever it was before. *)
Theorem filter_change_resets_page (st : Dashboard.State) (ev : Dashboard.Event) :
  Spec.changes_inputs st ev →
  Dashboard.currentPage (Dashboard.step st ev) = 1
  ∧ Dashboard.filteredSurveys (Dashboard.step st ev)
    = Dashboard.applyFilters_filtered
        (Dashboard.surveys (Dashboard.step st ev))
        (Dashboard.topicFilter (Dashboard.step st ev))
        (Dashboard.formatFilter (Dashboard.step st ev))
        (Dashboard.searchTerm (Dashboard.step st ev))
  ∧ Dashboard.surveys (Dashboard.step st ev)
    = Dashboard.surveys (Dashboard.handle ev st)
  ∧ Dashboard.topicFilter (Dashboard.step st ev)
    = Dashboard.topicFilter (Dashboard.handle ev st)
  ∧ Dashboard.formatFilter (Dashboard.step st ev)
    = Dashboard.formatFilter (Dashboard.handle ev st)
  ∧ Dashboard.searchTerm (Dashboard.step st ev)
    = Dashboard.searchTerm (Dashboard.handle ev st).
Proof.
  intros Hev. unfold Dashboard.step, Dashboard.useEffect_applyFilters.
  by rewrite (changes_inputs_deps st ev Hev).
Qed.

End ViewController.

(** C8 on the sample dashboard, which shows page 3: choosing the topic
    "Science" brings it back to page 1 with the one matching record. *)
Lemma filter_change_resets_page_witness :
  Dashboard.currentPage Sample.loaded = 3
  ∧ Dashboard.currentPage
      (@Dashboard.step JsString.ascii_runtime Sample.loaded
         (Dashboard.TopicFilterChanged "Science")) = 1
  ∧ Dashboard.filteredSurveys
      (@Dashboard.step JsString.ascii_runtime Sample.loaded
         (Dashboard.TopicFilterChanged "Science")) = [Sample.ana].
Proof.
  split; [reflexivity|].
  destruct (@filter_change_resets_page JsString.ascii_runtime Sample.loaded
              (Dashboard.TopicFilterChanged "Science")) as (Hpage & Hview & _).
  - simpl. discriminate.
  - split; [exact Hpage | rewrite Hview; reflexivity].
Defined.

(** ** End to end on the sample collections *)

Example twenty_five_records_three_pages :
  Dashboard.totalPages (Sample.fetched Sample.twenty_five) = 3
  ∧ Dashboard.currentSurveys (Sample.fetched Sample.twenty_five)
    = map (Sample.numbered ["Science"]) (seq 0 10)
  ∧ Dashboard.currentSurveys
      (Dashboard.goToPage 3 (Sample.fetched Sample.twenty_five))
    = map (Sample.numbered ["Science"]) (seq 20 5)
  ∧ Dashboard.currentPage
      (Dashboard.goToPage 99 (Sample.fetched Sample.twenty_five)) = 3
  ∧ Dashboard.currentPage
      (Dashboard.goToPage (-4) (Sample.fetched Sample.twenty_five)) = 1.
Proof. vm_compute. repeat split. Qed.

Example twelve_records_seven_on_topic :
  Dashboard.filteredSurveys
    (@Dashboard.step JsString.ascii_runtime (Sample.fetched Sample.twelve)
       (Dashboard.TopicFilterChanged "Technology"))
  = map (Sample.numbered ["Technology"; "Science"]) (seq 0 7)
  ∧ Dashboard.totalPages
      (@Dashboard.step JsString.ascii_runtime (Sample.fetched Sample.twelve)
         (Dashboard.TopicFilterChanged "Technology")) = 1
  ∧ Dashboard.topicStats (Sample.fetched Sample.twelve) !! "Technology"%string
    = Some (JsObject.Number 7).
Proof. vm_compute. repeat split. Qed.

Example search_is_case_insensitive :
  Dashboard.filteredSurveys
    (@Dashboard.applyFilters JsString.ascii_runtime Sample.searching)
  = [Sample.ana].
Proof. reflexivity. Qed.

(** ** Survey form *)

(** The check boxes never put a label twice into a selection, so the rows
    the form sends have duplicate-free [topics] and [podcast_formats]. *)
Lemma toggle_NoDup (value : string) (currentArray : list string) :
  NoDup currentArray → NoDup (SurveyForm.toggle value currentArray).
Proof.
  intros Hnd. unfold SurveyForm.toggle.
  destruct (JsArray.includes currentArray value) eqn:Hin.
  - rewrite (List_filter_decide _ (fun item => item ≠ value)).
    + by apply NoDup_filter.
    + intros item. by rewrite negb_true_iff, String.eqb_neq.
  - apply NoDup_app. split; [done|]. split; [|apply NoDup_singleton].
    intros x Hx ->%list_elem_of_singleton.
    apply array_includes_spec in Hx. congruence.
Qed.

(** C9: when no topic or no format is selected, [handleSubmit] sets the
    validation message and issues no insert request; an insert request is
    issued exactly when both selections are non-empty, and then it is the
    one request for the form's row. *)
Theorem handleSubmit_validates_first
  (v : SurveyForm.Variant) (store : SurveyForm.Row.t → SurveyForm.InsertOutcome)
  (st : SurveyForm.State) :
  (SurveyForm.topics (SurveyForm.formData st) = []
   ∨ SurveyForm.podcast_formats (SurveyForm.formData st) = [] →
   snd (SurveyForm.handleSubmit v store st) = []
   ∧ SurveyForm.error (fst (SurveyForm.handleSubmit v store st)) ≠ ""%string
   ∧ (SurveyForm.error (fst (SurveyForm.handleSubmit v store st))
      = SurveyForm.topics_required v
      ∨ SurveyForm.error (fst (SurveyForm.handleSubmit v store st))
        = SurveyForm.formats_required v)
   ∧ SurveyForm.formData (fst (SurveyForm.handleSubmit v store st))
     = SurveyForm.formData st)
  ∧ (snd (SurveyForm.handleSubmit v store st) ≠ []
     ↔ SurveyForm.topics (SurveyForm.formData st) ≠ []
       ∧ SurveyForm.podcast_formats (SurveyForm.formData st) ≠ [])
  ∧ (snd (SurveyForm.handleSubmit v store st) = []
     ∨ snd (SurveyForm.handleSubmit v store st)
       = [SurveyForm.insertRow (SurveyForm.formData st)]).
Proof.
  unfold SurveyForm.handleSubmit. simpl.
  destruct (SurveyForm.topics (SurveyForm.formData st)) as [|t ts]; simpl.
  { split; [intros _; destruct v; by auto|].
    split; [|by left]. split; [done | by intros [? _]]. }
  destruct (SurveyForm.podcast_formats (SurveyForm.formData st)) as [|f fs]; simpl.
  { split; [intros _; destruct v; by auto|].
    split; [|by left]. split; [done | by intros [_ ?]]. }
  split; [by intros [?|?]|].
  destruct (store _); simpl; (split; [done | by right]).
Qed.

(** C9 on a form with no topic ticked: the English variant sets its
    message and nothing is sent to the store. *)
Lemma handleSubmit_validates_first_witness :
  snd (SurveyForm.handleSubmit SurveyForm.English Sample.accepting Sample.no_topic)
  = []
  ∧ SurveyForm.error
      (fst (SurveyForm.handleSubmit SurveyForm.English Sample.accepting
              Sample.no_topic))
    = "Please select at least one topic"%string.
Proof.
  destruct (handleSubmit_validates_first SurveyForm.English Sample.accepting
              Sample.no_topic) as [Hinvalid _].
  destruct Hinvalid as (Hnone & _); [by left|].
  split; [exact Hnone | reflexivity].
Defined.

(** C10: for an accepted submission (both selections non-empty) the row
    sent to the store has [suggested_guest] null exactly when the input is
    the empty string and the input itself otherwise, and it has the [name]
    and the [description] as entered, empty or not. *)
Theorem handleSubmit_inserted_row
  (v : SurveyForm.Variant) (store : SurveyForm.Row.t → SurveyForm.InsertOutcome)
  (st : SurveyForm.State) :
  SurveyForm.topics (SurveyForm.formData st) ≠ [] →
  SurveyForm.podcast_formats (SurveyForm.formData st) ≠ [] →
  ∃ row,
    snd (SurveyForm.handleSubmit v store st) = [row]
    ∧ (SurveyForm.Row.suggested_guest row = None
       ↔ SurveyForm.suggested_guest (SurveyForm.formData st) = ""%string)
    ∧ (SurveyForm.suggested_guest (SurveyForm.formData st) ≠ ""%string →
       SurveyForm.Row.suggested_guest row
       = Some (SurveyForm.suggested_guest (SurveyForm.formData st)))
    ∧ SurveyForm.Row.name row = SurveyForm.name (SurveyForm.formData st)
    ∧ SurveyForm.Row.description row
      = SurveyForm.description (SurveyForm.formData st)
    ∧ SurveyForm.Row.topics row = SurveyForm.topics (SurveyForm.formData st)
    ∧ SurveyForm.Row.podcast_formats row
      = SurveyForm.podcast_formats (SurveyForm.formData st).
Proof.
  intros Htopics Hformats.
  exists (SurveyForm.insertRow (SurveyForm.formData st)). split.
  - unfold SurveyForm.handleSubmit. simpl.
    destruct (SurveyForm.topics (SurveyForm.formData st)); [done|].
    destruct (SurveyForm.podcast_formats (SurveyForm.formData st)); [done|].
    simpl. by destruct (store _).
  - simpl. unfold SurveyForm.or_null.
    destruct (SurveyForm.suggested_guest (SurveyForm.formData st)); simpl;
      repeat split; done.
Qed.

(** C10 on a complete form whose name and suggested guest are empty: the
    row has the empty name and a null [suggested_guest]. *)
Lemma handleSubmit_inserted_row_witness :
  ∃ row,
    snd (SurveyForm.handleSubmit SurveyForm.Indonesian Sample.accepting
           Sample.complete) = [row]
    ∧ SurveyForm.Row.suggested_guest row = None
    ∧ SurveyForm.Row.name row = ""%string
    ∧ SurveyForm.Row.description row = "Black holes"%string.
Proof.
  destruct (handleSubmit_inserted_row SurveyForm.Indonesian Sample.accepting
              Sample.complete) as (row & Hrow & Hguest & _ & Hname & Hdesc & _).
  - discriminate.
  - discriminate.
  - exists row. split; [exact Hrow|].
    split; [by apply Hguest | by rewrite Hname, Hdesc].
Defined.

(** * Beyond the claims: the rest of the dashboard, the form, the login
      page and the theme *)

(** ** Filter engine: the filter as one callback *)

Lemma List_filter_filter {A} (f g : A → bool) (l : list A) :
  List.filter f (List.filter g l) = List.filter (fun x => g x && f x) l.
Proof.
  induction l as [|x l IH]; [done|]. simpl.
  destruct (g x); simpl; [destruct (f x)|]; by rewrite IH.
Qed.

Lemma cond_filter_filter {A} (c : bool) (f : A → bool) (l : list A) :
  (if c then List.filter f l else l) = List.filter (fun x => negb c || f x) l.
Proof.
  destruct c; simpl; [done|]. induction l as [|x l IH]; [done|].
  simpl. by rewrite <- IH.
Qed.

Lemma List_filter_idem {A} (f : A → bool) (l : list A) :
  List.filter f (List.filter f l) = List.filter f l.
Proof.
  rewrite List_filter_filter. apply List.filter_ext. intros x. by destruct (f x).
Qed.

Lemma List_filter_comm {A} (f g : A → bool) (l : list A) :
  List.filter f (List.filter g l) = List.filter g (List.filter f l).
Proof.
  rewrite !List_filter_filter. apply List.filter_ext. intros x.
  apply andb_comm.
Qed.

Section FilterAlgebra.
Context `{JsString.Runtime}.

Lemma applyFilters_filtered_passes
  (surveys : list Dashboard.Survey) (topicFilter formatFilter searchTerm : string) :
  Dashboard.applyFilters_filtered surveys topicFilter formatFilter searchTerm
  = List.filter (Spec.passes topicFilter formatFilter searchTerm) surveys.
Proof.
  unfold Dashboard.applyFilters_filtered, Spec.passes.
  rewrite !cond_filter_filter, !List_filter_filter.
  apply List.filter_ext. intros s. by rewrite !negb_involutive, andb_assoc.
Qed.

(** X1: filtering a filtered collection again with the same filter state
    changes nothing, and the filter of a concatenation is the concatenation
    of the filters. *)
Theorem applyFilters_filtered_idempotent
  (r1 r2 : list Dashboard.Survey) (topicFilter formatFilter searchTerm : string) :
  Dashboard.applyFilters_filtered
    (Dashboard.applyFilters_filtered r1 topicFilter formatFilter searchTerm)
    topicFilter formatFilter searchTerm
  = Dashboard.applyFilters_filtered r1 topicFilter formatFilter searchTerm
  ∧ Dashboard.applyFilters_filtered (r1 ++ r2) topicFilter formatFilter searchTerm
    = Dashboard.applyFilters_filtered r1 topicFilter formatFilter searchTerm
      ++ Dashboard.applyFilters_filtered r2 topicFilter formatFilter searchTerm.
Proof.
  rewrite !applyFilters_filtered_passes. split.
  - apply List_filter_idem.
  - apply List.filter_app.
Qed.

(** X2: after a successful bulk delete the filtered view is the filter of
    the old records without the deleted ones; when the old view was up to
    date, it is the old view without them.  The page is 1, the selection is
    empty, and the two stats tables are the old ones: they are not
    recomputed. *)
Theorem delete_updates_view (ids : list string) (st : Dashboard.State) :
  Dashboard.filteredSurveys
    (Dashboard.step st (Dashboard.DeleteSelected ids true (Dashboard.StoreOk ())))
  = List.filter (fun s => negb (JsArray.includes ids (Dashboard.id s)))
      (Dashboard.applyFilters_filtered (Dashboard.surveys st)
         (Dashboard.topicFilter st) (Dashboard.formatFilter st)
         (Dashboard.searchTerm st))
  ∧ (Spec.view_consistent st →
     Dashboard.filteredSurveys
       (Dashboard.step st
          (Dashboard.DeleteSelected ids true (Dashboard.StoreOk ())))
     = List.filter (fun s => negb (JsArray.includes ids (Dashboard.id s)))
         (Dashboard.filteredSurveys st))
  ∧ Dashboard.currentPage
      (Dashboard.step st (Dashboard.DeleteSelected ids true (Dashboard.StoreOk ())))
    = 1
  ∧ Dashboard.deleteItems
      (Dashboard.step st (Dashboard.DeleteSelected ids true (Dashboard.StoreOk ())))
    = []
  ∧ Dashboard.topicStats
      (Dashboard.step st (Dashboard.DeleteSelected ids true (Dashboard.StoreOk ())))
    = Dashboard.topicStats st
  ∧ Dashboard.formatStats
      (Dashboard.step st (Dashboard.DeleteSelected ids true (Dashboard.StoreOk ())))
    = Dashboard.formatStats st.
Proof.
  assert (Hstep :
    Dashboard.step st (Dashboard.DeleteSelected ids true (Dashboard.StoreOk ()))
    = Dashboard.applyFilters
        (Dashboard.handleDeleteSurvey ids true (Dashboard.StoreOk ()) st)).
  { unfold Dashboard.step, Dashboard.useEffect_applyFilters.
    by rewrite deps_changed_setSurveys. }
  rewrite Hstep. simpl.
  assert (Hview :
    Dashboard.applyFilters_filtered
      (List.filter (fun s => negb (JsArray.includes ids (Dashboard.id s)))
         (Dashboard.surveys st))
      (Dashboard.topicFilter st) (Dashboard.formatFilter st)
      (Dashboard.searchTerm st)
    = List.filter (fun s => negb (JsArray.includes ids (Dashboard.id s)))
        (Dashboard.applyFilters_filtered (Dashboard.surveys st)
           (Dashboard.topicFilter st) (Dashboard.formatFilter st)
           (Dashboard.searchTerm st))).
  { rewrite !applyFilters_filtered_passes. apply List_filter_comm. }
  split; [exact Hview|]. split; [|done].
  intros Hcons. rewrite Hview. by rewrite <- Hcons.
Qed.

End FilterAlgebra.

(** X2 on the loaded sample, whose view is up to date: deleting "b2"
    leaves the one other record in the view. *)
Lemma delete_updates_view_witness :
  Dashboard.filteredSurveys
    (@Dashboard.step JsString.ascii_runtime Sample.loaded
       (Dashboard.DeleteSelected ["b2"] true (Dashboard.StoreOk ())))
  = [Sample.ana].
Proof.
  destruct (@delete_updates_view JsString.ascii_runtime ["b2"] Sample.loaded)
    as (_ & Hview & _).
  rewrite Hview; reflexivity.
Defined.

(** ** Paginator: what a page shows *)

Lemma records_between_length {A} (l : list A) (a b : Z) :
  0 ≤ a → b ≤ Z.of_nat (length l) →
  Z.of_nat (length (Spec.records_between l a b)) = Z.max 0 (b - a).
Proof.
  intros Ha Hb. unfold Spec.records_between.
  rewrite length_take, length_drop. lia.
Qed.

Lemma currentSurveys_length (st : Dashboard.State) :
  1 ≤ Dashboard.currentPage st →
  Z.of_nat (length (Dashboard.currentSurveys st))
  = Z.max 0 (Dashboard.showing_last st - Dashboard.startIndex st).
Proof.
  intros Hp. unfold Dashboard.currentSurveys, Dashboard.showing_last.
  assert (0 ≤ Dashboard.startIndex st)
    by (unfold Dashboard.startIndex, Dashboard.itemsPerPage; lia).
  assert (0 ≤ Dashboard.endIndex st)
    by (unfold Dashboard.endIndex, Dashboard.itemsPerPage; lia).
  rewrite slice_nonneg by done. apply records_between_length; lia.
Qed.

Lemma page_in_range_shows (st : Dashboard.State) :
  1 ≤ Dashboard.currentPage st ≤ Dashboard.totalPages st →
  1 ≤ Z.of_nat (length (Dashboard.currentSurveys st)) ≤ 10.
Proof.
  intros Hp. rewrite currentSurveys_length by lia.
  pose proof (totalPages_bounds st) as Hb.
  unfold Dashboard.showing_last, Dashboard.endIndex, Dashboard.startIndex,
    Dashboard.itemsPerPage. lia.
Qed.

(** X3: on a page between 1 and [totalPages] the slice holds at least one
    and at most ten records, exactly ten on every page but the last, and
    the heading "Showing a-b of n" counts them: [b - a + 1] is the length
    of the slice and [1 <= a <= b <= n]. *)
Theorem page_shows_one_to_ten (st : Dashboard.State) :
  1 ≤ Dashboard.currentPage st ≤ Dashboard.totalPages st →
  1 ≤ Z.of_nat (length (Dashboard.currentSurveys st)) ≤ 10
  ∧ (Dashboard.currentPage st < Dashboard.totalPages st →
     length (Dashboard.currentSurveys st) = 10%nat)
  ∧ Z.of_nat (length (Dashboard.currentSurveys st))
    = Dashboard.showing_last st - Dashboard.showing_first st + 1
  ∧ 1 ≤ Dashboard.showing_first st ≤ Dashboard.showing_last st
  ∧ Dashboard.showing_last st
    ≤ Z.of_nat (length (Dashboard.filteredSurveys st)).
Proof.
  intros Hp. pose proof (page_in_range_shows st Hp) as Hlen.
  rewrite currentSurveys_length in * by lia.
  pose proof (totalPages_bounds st) as Hb.
  unfold Dashboard.showing_first, Dashboard.showing_last, Dashboard.endIndex,
    Dashboard.startIndex, Dashboard.itemsPerPage in *.
  repeat split; try lia.
  intros Hlast. apply Nat2Z.inj.
  rewrite (currentSurveys_length st) by lia.
  unfold Dashboard.showing_last, Dashboard.endIndex, Dashboard.startIndex,
    Dashboard.itemsPerPage. lia.
Qed.

(** X3 on page 3 of the 25 sample records: five records, "21-25 of 25". *)
Lemma page_shows_one_to_ten_witness :
  Z.of_nat
    (length (Dashboard.currentSurveys
               (Dashboard.goToPage 3 (Sample.fetched Sample.twenty_five)))) = 5
  ∧ Dashboard.showing_first
      (Dashboard.goToPage 3 (Sample.fetched Sample.twenty_five)) = 21
  ∧ Dashboard.showing_last
      (Dashboard.goToPage 3 (Sample.fetched Sample.twenty_five)) = 25.
Proof.
  destruct (page_shows_one_to_ten
              (Dashboard.goToPage 3 (Sample.fetched Sample.twenty_five)))
    as (_ & _ & Hcount & _).
  - vm_compute. split; discriminate.
  - split; [rewrite Hcount|]; by vm_compute.
Defined.

(** ** Paginator: the four buttons *)

Lemma setCurrentPage_same (st : Dashboard.State) :
  Dashboard.setCurrentPage (Dashboard.currentPage st) st = st.
Proof. by destruct st. Qed.

Lemma setCurrentPage_inj (p : Z) (st : Dashboard.State) :
  Dashboard.setCurrentPage p st = st ↔ p = Dashboard.currentPage st.
Proof.
  split; [intros Heq | intros ->; apply setCurrentPage_same].
  by rewrite <- Heq.
Qed.

(** X4: on a page between 1 and [totalPages], First and Prev leave the
    state as it is exactly when they are disabled (page 1), Next and Last
    exactly when they are disabled (the last page); otherwise Prev and Next
    move by one page, and Next followed by Prev, or Prev followed by Next,
    comes back to the same state. *)
Theorem page_buttons (st : Dashboard.State) :
  1 ≤ Dashboard.currentPage st ≤ Dashboard.totalPages st →
  (Dashboard.firstPage st = st ↔ Dashboard.back_disabled st = true)
  ∧ (Dashboard.prevPage st = st ↔ Dashboard.back_disabled st = true)
  ∧ (Dashboard.nextPage st = st ↔ Dashboard.forward_disabled st = true)
  ∧ (Dashboard.lastPage st = st ↔ Dashboard.forward_disabled st = true)
  ∧ (Dashboard.back_disabled st = false →
     Dashboard.currentPage (Dashboard.prevPage st) = Dashboard.currentPage st - 1
     ∧ Dashboard.nextPage (Dashboard.prevPage st) = st)
  ∧ (Dashboard.forward_disabled st = false →
     Dashboard.currentPage (Dashboard.nextPage st) = Dashboard.currentPage st + 1
     ∧ Dashboard.prevPage (Dashboard.nextPage st) = st)
  ∧ Dashboard.currentPage (Dashboard.firstPage st) = 1
  ∧ Dashboard.currentPage (Dashboard.lastPage st) = Dashboard.totalPages st.
Proof.
  intros Hp.
  unfold Dashboard.firstPage, Dashboard.prevPage, Dashboard.nextPage,
    Dashboard.lastPage, Dashboard.back_disabled, Dashboard.forward_disabled,
    Dashboard.goToPage.
  rewrite !setCurrentPage_inj, !Z.eqb_eq, !Z.eqb_neq.
  change (Dashboard.totalPages (Dashboard.setCurrentPage _ st))
    with (Dashboard.totalPages st).
  simpl Dashboard.currentPage.
  repeat split; try lia.
  - destruct st as [? ? ? ? ? ? ? ? ? p ?]; simpl in *.
    unfold Dashboard.setCurrentPage; simpl. f_equal.
    change (Dashboard.totalPages _) with
      (Math_ceil_div (Z.of_nat (length filteredSurveys)) Dashboard.itemsPerPage)
      in *. lia.
  - destruct st as [? ? ? ? ? ? ? ? ? p ?]; simpl in *.
    unfold Dashboard.setCurrentPage; simpl. f_equal.
    change (Dashboard.totalPages _) with
      (Math_ceil_div (Z.of_nat (length filteredSurveys)) Dashboard.itemsPerPage)
      in *. lia.
Qed.

(** X4 on page 2 of the 25 sample records: Next leads to page 3, and Prev
    from there leads back. *)
Lemma page_buttons_witness :
  Dashboard.currentPage
    (Dashboard.nextPage
       (Dashboard.goToPage 2 (Sample.fetched Sample.twenty_five))) = 3
  ∧ Dashboard.prevPage
      (Dashboard.nextPage
         (Dashboard.goToPage 2 (Sample.fetched Sample.twenty_five)))
    = Dashboard.goToPage 2 (Sample.fetched Sample.twenty_five).
Proof.
  destruct (page_buttons
              (Dashboard.goToPage 2 (Sample.fetched Sample.twenty_five)))
    as (_ & _ & _ & _ & _ & Hnext & _).
  - vm_compute. split; discriminate.
  - destruct Hnext as [Hpage Hback]; [by vm_compute|].
    split; [rewrite Hpage; by vm_compute | exact Hback].
Defined.

(** ** Selection *)

Lemma remove_elem_of (survey_id x : string) (items : list string) :
  x ∈ List.filter (fun i => negb (String.eqb i survey_id)) items
  ↔ x ∈ items ∧ x ≠ survey_id.
Proof.
  rewrite !list_elem_of_In, filter_In, negb_true_iff, String.eqb_neq. done.
Qed.

Lemma remove_NoDup (survey_id : string) (items : list string) :
  NoDup items → NoDup (List.filter (fun i => negb (String.eqb i survey_id)) items).
Proof.
  intros Hnd. rewrite (List_filter_decide _ (fun i => i ≠ survey_id)).
  - by apply NoDup_filter.
  - intros i. by rewrite negb_true_iff, String.eqb_neq.
Qed.

Lemma toggleDeleteItem_elem_of (survey_id x : string) (st : Dashboard.State) :
  x ∈ Dashboard.deleteItems (Dashboard.toggleDeleteItem survey_id st)
  ↔ (x = survey_id ∧ survey_id ∉ Dashboard.deleteItems st)
    ∨ (x ≠ survey_id ∧ x ∈ Dashboard.deleteItems st).
Proof.
  unfold Dashboard.toggleDeleteItem.
  destruct (JsArray.includes (Dashboard.deleteItems st) survey_id) eqn:Hin; simpl.
  - apply array_includes_spec in Hin. rewrite remove_elem_of.
    split; [intros [? ?]; by right | intros [[_ ?]|[? ?]]; done].
  - assert (survey_id ∉ Dashboard.deleteItems st) as Hnot
      by (rewrite <- array_includes_spec; congruence).
    rewrite elem_of_app, list_elem_of_singleton. split.
    + intros [Hx| ->]; [right | by left].
      split; [intros -> | ]; done.
    + intros [[-> _]|[_ ?]]; [by right | by left].
Qed.

Lemma toggleDeleteItem_NoDup (survey_id : string) (st : Dashboard.State) :
  NoDup (Dashboard.deleteItems st) →
  NoDup (Dashboard.deleteItems (Dashboard.toggleDeleteItem survey_id st)).
Proof.
  intros Hnd. unfold Dashboard.toggleDeleteItem.
  destruct (JsArray.includes (Dashboard.deleteItems st) survey_id) eqn:Hin; simpl.
  - by apply remove_NoDup.
  - apply NoDup_app. split; [done|]. split; [|apply NoDup_singleton].
    intros x Hx ->%list_elem_of_singleton.
    apply array_includes_spec in Hx. congruence.
Qed.

(** X5: a click on a row marks its id when it is not marked and unmarks it
    when it is; the marks of all other ids stay, so two clicks on the same
    row give back the marks there were.  A selection without repetition
    stays without repetition, and the row's check box, whose [checked] is
    the mark, computes the same selection as the click on the row. *)
Theorem toggleDeleteItem_flips (survey_id : string) (st : Dashboard.State) :
  (survey_id ∈ Dashboard.deleteItems (Dashboard.toggleDeleteItem survey_id st)
   ↔ survey_id ∉ Dashboard.deleteItems st)
  ∧ (∀ other, other ≠ survey_id →
       (other ∈ Dashboard.deleteItems (Dashboard.toggleDeleteItem survey_id st)
        ↔ other ∈ Dashboard.deleteItems st))
  ∧ (∀ x, x ∈ Dashboard.deleteItems
                (Dashboard.toggleDeleteItem survey_id
                   (Dashboard.toggleDeleteItem survey_id st))
          ↔ x ∈ Dashboard.deleteItems st)
  ∧ (NoDup (Dashboard.deleteItems st) →
     NoDup (Dashboard.deleteItems (Dashboard.toggleDeleteItem survey_id st)))
  ∧ Dashboard.checkboxChange
      (negb (JsArray.includes (Dashboard.deleteItems st) survey_id)) survey_id st
    = Dashboard.toggleDeleteItem survey_id st.
Proof.
  split; [|split; [|split; [|split]]].
  - rewrite toggleDeleteItem_elem_of.
    split; [intros [[_ ?]|[? _]]; done | intros ?; by left].
  - intros other Hne. rewrite toggleDeleteItem_elem_of.
    split; [intros [[? _]|[_ ?]]; done | intros ?; by right].
  - intros x. rewrite !toggleDeleteItem_elem_of.
    destruct (decide (x = survey_id)) as [->|Hne].
    + split.
      * intros [[_ Hnot]|[? _]]; [|done].
        destruct (decide (survey_id ∈ Dashboard.deleteItems st)); [done|].
        exfalso. apply Hnot. left. done.
      * intros Hin. left. split; [done|].
        intros [[_ ?]|[? _]]; done.
    + split.
      * intros [[? _]|[_ [[? _]|[_ ?]]]]; done.
      * intros Hin. right. split; [done|]. by right.
  - apply toggleDeleteItem_NoDup.
  - unfold Dashboard.checkboxChange, Dashboard.toggleDeleteItem.
    by destruct (JsArray.includes (Dashboard.deleteItems st) survey_id).
Qed.

(** X5 on the loaded sample, where "b2" is marked: a click on its row
    unmarks it, the selection becomes empty. *)
Lemma toggleDeleteItem_flips_witness :
  ¬ (Dashboard.id Sample.anonymous
     ∈ Dashboard.deleteItems (Dashboard.toggleDeleteItem "b2" Sample.loaded))
  ∧ NoDup (Dashboard.deleteItems (Dashboard.toggleDeleteItem "b2" Sample.loaded)).
Proof.
  destruct (toggleDeleteItem_flips "b2" Sample.loaded)
    as (Hflip & _ & _ & Hnd & _).
  split.
  - intros Hin. apply Hflip in Hin. apply Hin. vm_compute. by left.
  - apply Hnd. vm_compute. apply NoDup_singleton.
Defined.

(** ** View controller: what holds in every state a run reaches *)

Section Invariant.
Context `{JsString.Runtime}.

Lemma handle_deleteItems_NoDup (ev : Dashboard.Event) (st : Dashboard.State) :
  NoDup (Dashboard.deleteItems st) →
  NoDup (Dashboard.deleteItems (Dashboard.handle ev st)).
Proof.
  intros Hnd.
  destruct ev as [[data|msg]|v|v|v| |n|i|ids [|] [[]|msg]]; simpl; try done.
  - by apply toggleDeleteItem_NoDup.
  - apply NoDup_nil_2.
Qed.

Lemma deps_unchanged (prev next : Dashboard.State) :
  Dashboard.deps_changed prev next = false →
  Dashboard.surveys_ref prev = Dashboard.surveys_ref next
  ∧ Dashboard.topicFilter prev = Dashboard.topicFilter next
  ∧ Dashboard.formatFilter prev = Dashboard.formatFilter next
  ∧ Dashboard.searchTerm prev = Dashboard.searchTerm next.
Proof.
  unfold Dashboard.deps_changed.
  rewrite !orb_false_iff, !negb_false_iff, Nat.eqb_eq, !String.eqb_eq. tauto.
Qed.

Lemma handle_without_effect (ev : Dashboard.Event) (st : Dashboard.State) :
  Dashboard.enabled st ev = true →
  Dashboard.deps_changed st (Dashboard.handle ev st) = false →
  Spec.view_consistent st → Spec.page_in_range st →
  Spec.view_consistent (Dashboard.handle ev st)
  ∧ Spec.page_in_range (Dashboard.handle ev st).
Proof.
  intros Hen Hdeps Hview Hpage. apply deps_unchanged in Hdeps.
  destruct Hdeps as (Href & Htopic & Hformat & Hsearch).
  unfold Spec.view_consistent, Spec.page_in_range in *.
  destruct ev as [[data|msg]|v|v|v| |n|i|ids [|] [[]|msg]];
    simpl in *; try done; try lia.
  - by rewrite Htopic in Hview.
  - by rewrite Hformat in Hview.
  - by rewrite Hsearch in Hview.
  - by rewrite Htopic, Hformat, Hsearch in Hview.
  - apply paginationControls_rendered_spec in Hen as [_ Hmany].
    split; [done|].
    change (Dashboard.totalPages (Dashboard.goToPage n st))
      with (Dashboard.totalPages st). lia.
  - unfold Dashboard.toggleDeleteItem.
    by destruct (JsArray.includes (Dashboard.deleteItems st) i).
Qed.

Lemma step_keeps_invariant (ev : Dashboard.Event) (st : Dashboard.State) :
  Dashboard.enabled st ev = true →
  Spec.view_consistent st ∧ Spec.page_in_range st
  ∧ NoDup (Dashboard.deleteItems st) →
  Spec.view_consistent (Dashboard.step st ev)
  ∧ Spec.page_in_range (Dashboard.step st ev)
  ∧ NoDup (Dashboard.deleteItems (Dashboard.step st ev)).
Proof.
  intros Hen (Hview & Hpage & Hnd).
  pose proof (handle_deleteItems_NoDup ev st Hnd) as Hnd'.
  unfold Dashboard.step, Dashboard.useEffect_applyFilters.
  destruct (Dashboard.deps_changed st (Dashboard.handle ev st)) eqn:Hdeps.
  - split; [done|]. split; [|done].
    unfold Spec.page_in_range. simpl. lia.
  - destruct (handle_without_effect ev st Hen Hdeps Hview Hpage). done.
Qed.

Lemma run_keeps_invariant (evs : list Dashboard.Event) (st st' : Dashboard.State) :
  Spec.view_consistent st ∧ Spec.page_in_range st
  ∧ NoDup (Dashboard.deleteItems st) →
  Dashboard.run st evs = Some st' →
  Spec.view_consistent st' ∧ Spec.page_in_range st'
  ∧ NoDup (Dashboard.deleteItems st').
Proof.
  revert st. induction evs as [|ev evs IH]; intros st Hinv; simpl.
  - by intros [= <-].
  - destruct (Dashboard.enabled st ev) eqn:Hen; [|done].
    apply IH. by apply step_keeps_invariant.
Qed.

(** X6: in every state the dashboard reaches from its initial state (page
    buttons being clicked only while they are on screen), the filtered
    view is the filter of the current records and filter inputs,
    [1 <= currentPage <= max(totalPages, 1)], the selection holds no id
    twice, and the page on display is not blank unless the filtered view
    is empty. *)
Theorem reachable_invariant (evs : list Dashboard.Event) (st : Dashboard.State) :
  Dashboard.run Dashboard.initial evs = Some st →
  Spec.view_consistent st
  ∧ Spec.page_in_range st
  ∧ NoDup (Dashboard.deleteItems st)
  ∧ (Dashboard.filteredSurveys st ≠ [] → Dashboard.currentSurveys st ≠ []).
Proof.
  intros Hrun.
  destruct (run_keeps_invariant evs Dashboard.initial st) as (Hview & Hpage & Hnd).
  - split; [done|]. split; [by vm_compute | apply NoDup_nil_2].
  - done.
  - split; [done|]. split; [done|]. split; [done|].
    intros Hne Hblank. unfold Spec.page_in_range in Hpage.
    pose proof (totalPages_bounds st) as Hb.
    assert (1 ≤ Dashboard.totalPages st)
      by (destruct (Dashboard.filteredSurveys st); [done | simpl in Hb; lia]).
    pose proof (page_in_range_shows st) as Hshows.
    rewrite Hblank in Hshows. simpl in Hshows. lia.
Qed.

End Invariant.

(** X6 on the sample session: it ends on page 1 of an empty view, with
    the marked row still marked. *)
Lemma reachable_invariant_witness :
  match @Dashboard.run JsString.ascii_runtime Dashboard.initial Sample.browsing with
  | Some st =>
      @Spec.view_consistent JsString.ascii_runtime st
      ∧ Spec.page_in_range st
      ∧ NoDup (Dashboard.deleteItems st)
  | None => False
  end.
Proof.
  destruct (@Dashboard.run JsString.ascii_runtime Dashboard.initial Sample.browsing)
    as [st|] eqn:Hrun.
  - destruct (@reachable_invariant JsString.ascii_runtime Sample.browsing st Hrun)
      as (Hview & Hpage & Hnd & _).
    split; [exact Hview|]. split; [exact Hpage | exact Hnd].
  - vm_compute in Hrun. discriminate Hrun.
Defined.

(** ** The labels on offer and the statistics *)

Lemma foldl_Set_add_elem_of (xs set : list string) (x : string) :
  x ∈ foldl JsArray.Set_add set xs ↔ x ∈ set ∨ x ∈ xs.
Proof.
  revert set. induction xs as [|y xs IH]; intros set; simpl.
  - rewrite elem_of_nil. tauto.
  - rewrite IH, elem_of_cons. unfold JsArray.Set_add.
    destruct (JsArray.includes set y) eqn:Hin.
    + apply array_includes_spec in Hin.
      split; [tauto | intros [?|[->|?]]; tauto].
    + rewrite elem_of_app, list_elem_of_singleton. tauto.
Qed.

Lemma foldl_Set_add_NoDup (xs set : list string) :
  NoDup set → NoDup (foldl JsArray.Set_add set xs).
Proof.
  revert set. induction xs as [|y xs IH]; intros set Hnd; simpl; [done|].
  apply IH. unfold JsArray.Set_add.
  destruct (JsArray.includes set y) eqn:Hin; [done|].
  apply NoDup_app. split; [done|]. split; [|apply NoDup_singleton].
  intros x Hx ->%list_elem_of_singleton.
  apply array_includes_spec in Hx. congruence.
Qed.

#[local] Instance code_unit_le_total : Total JsArray.code_unit_le.
Proof. intros a b. apply String.leb_total. Qed.

Lemma code_unit_lt (a b : string) :
  JsArray.code_unit_le a b → a ≠ b → String.ltb a b = true.
Proof.
  unfold JsArray.code_unit_le, String.leb, String.ltb. intros Hle Hne.
  destruct (String.compare a b) eqn:Hcmp; [|done..].
  by apply String.compare_eq_iff in Hcmp.
Qed.

Lemma Sorted_NoDup_strict (l : list string) :
  Sorted JsArray.code_unit_le l → NoDup l →
  Sorted (fun a b => String.ltb a b = true) l.
Proof.
  induction 1 as [|x l Hsorted IH Hhd]; intros Hnd; [constructor|].
  apply NoDup_cons in Hnd as [Hx Hnd]. constructor; [by apply IH|].
  destruct Hhd as [|y l Hxy]; constructor.
  apply code_unit_lt; [done|]. intros ->. apply Hx. by left.
Qed.

(** The labels of a field over a collection, as the render lists them. *)
Lemma sort_from_Set_spec (labels : list string) :
  (∀ label, label ∈ JsArray.sort (JsArray.from_Set labels) ↔ label ∈ labels)
  ∧ NoDup (JsArray.sort (JsArray.from_Set labels))
  ∧ Sorted (fun a b => String.ltb a b = true)
      (JsArray.sort (JsArray.from_Set labels)).
Proof.
  unfold JsArray.sort.
  pose proof (merge_sort_Permutation JsArray.code_unit_le
                (JsArray.from_Set labels)) as Hperm.
  assert (NoDup (JsArray.from_Set labels)) as Hnd
    by (apply foldl_Set_add_NoDup, NoDup_nil_2).
  assert (NoDup (merge_sort JsArray.code_unit_le (JsArray.from_Set labels)))
    as Hnd' by (by rewrite Hperm).
  split; [|split; [done|]].
  - intros label. rewrite Hperm. unfold JsArray.from_Set.
    rewrite foldl_Set_add_elem_of, elem_of_nil. tauto.
  - apply Sorted_NoDup_strict; [apply (Sorted_merge_sort _)|done].
Qed.

(** X7: the topics and formats offered by the two drop-down lists are
    exactly the labels that occur in some record; each is listed once, and
    the lists are in strictly ascending code-unit order. *)
Theorem unique_labels (st : Dashboard.State) :
  (∀ label, label ∈ Dashboard.uniqueTopics st
            ↔ ∃ s, s ∈ Dashboard.surveys st ∧ label ∈ Dashboard.topics s)
  ∧ (∀ label, label ∈ Dashboard.uniqueFormats st
              ↔ ∃ s, s ∈ Dashboard.surveys st
                     ∧ label ∈ Dashboard.podcast_formats s)
  ∧ NoDup (Dashboard.uniqueTopics st)
  ∧ NoDup (Dashboard.uniqueFormats st)
  ∧ Sorted (fun a b => String.ltb a b = true) (Dashboard.uniqueTopics st)
  ∧ Sorted (fun a b => String.ltb a b = true) (Dashboard.uniqueFormats st).
Proof.
  unfold Dashboard.uniqueTopics, Dashboard.uniqueFormats.
  destruct (sort_from_Set_spec
              (concat (map Dashboard.topics (Dashboard.surveys st))))
    as (Ht & Htn & Hts).
  destruct (sort_from_Set_spec
              (concat (map Dashboard.podcast_formats (Dashboard.surveys st))))
    as (Hf & Hfn & Hfs).
  repeat split; try done.
  - rewrite Ht. apply elem_of_flatMap.
  - rewrite Ht. apply elem_of_flatMap.
  - rewrite Hf. apply elem_of_flatMap.
  - rewrite Hf. apply elem_of_flatMap.
Qed.

Example uniqueTopics_of_the_sample :
  Dashboard.uniqueTopics Sample.loaded = ["Business"; "Science"; "Technology"]
  ∧ Dashboard.uniqueFormats Sample.loaded = ["Debate"; "Interview"].
Proof. by vm_compute. Qed.

Lemma count_label_is_Some (stats : gmap string JsObject.Value) (x label : string) :
  is_Some (Dashboard.count_label stats x !! label)
  ↔ is_Some (stats !! label) ∨ (label = x ∧ x ≠ "__proto__"%string).
Proof.
  destruct (decide (x = label)) as [->|Hne].
  - destruct (String.eqb_spec label "__proto__") as [Hp|Hp].
    + unfold Dashboard.count_label, JsObject.set.
      rewrite (proj2 (String.eqb_eq _ _) Hp). split; [by left|].
      intros [?|[_ ?]]; done.
    + rewrite count_label_lookup_eq by (by apply String.eqb_neq).
      split; [intros _; by right | by eexists].
  - rewrite count_label_lookup_ne by done.
    split; [by left | intros [?|[? _]]; [done | congruence]].
Qed.

Lemma foldl_count_label_is_Some (labels : list string)
  (stats : gmap string JsObject.Value) (label : string) :
  is_Some (foldl Dashboard.count_label stats labels !! label)
  ↔ is_Some (stats !! label)
    ∨ (label ∈ labels ∧ label ≠ "__proto__"%string).
Proof.
  revert stats. induction labels as [|x labels IH]; intros stats; simpl.
  - rewrite elem_of_nil. tauto.
  - rewrite IH, count_label_is_Some, elem_of_cons.
    split; [intros [[?|[-> ?]]|[? ?]]; tauto|].
    intros [?|[[->|?] ?]]; tauto.
Qed.

Lemma table_is_Some (labels : list string) (label : string) :
  is_Some (foldl Dashboard.count_label ∅ labels !! label)
  ↔ label ∈ labels ∧ label ≠ "__proto__"%string.
Proof.
  rewrite foldl_count_label_is_Some, lookup_empty.
  split; [intros [[? ?]|?]; done | by right].
Qed.

Lemma own_keys_spec (labels : list string) (label : string) :
  label ∈ Spec.own_keys labels ↔ label ∈ labels ∧ label ≠ "__proto__"%string.
Proof.
  unfold Spec.own_keys.
  by rewrite !list_elem_of_In, filter_In, negb_true_iff, String.eqb_neq.
Qed.

Lemma own_keys_all (labels : list string) :
  "__proto__"%string ∉ labels → Spec.own_keys labels = labels.
Proof.
  unfold Spec.own_keys. induction labels as [|x labels IH]; [done|].
  intros [Hne Hnot]%not_elem_of_cons. simpl.
  rewrite (proj2 (String.eqb_neq x "__proto__")) by congruence. simpl.
  by rewrite IH.
Qed.

Lemma table_size (labels : list string) :
  size (foldl Dashboard.count_label ∅ labels)
  = length (Spec.own_keys (JsArray.sort (JsArray.from_Set labels))).
Proof.
  destruct (sort_from_Set_spec labels) as (Hin & Hnd & _).
  assert (NoDup (Spec.own_keys (JsArray.sort (JsArray.from_Set labels)))) as Hnd'.
  { unfold Spec.own_keys.
    rewrite (List_filter_decide _ (fun l => l ≠ "__proto__"%string)).
    - by apply NoDup_filter.
    - intros l. by rewrite negb_true_iff, String.eqb_neq. }
  rewrite <- (size_list_to_set (C:=gset string)) by done.
  rewrite <- (size_dom (D:=gset string)). f_equal.
  apply set_eq. intros label.
  by rewrite elem_of_dom, table_is_Some, elem_of_list_to_set, own_keys_spec, Hin.
Qed.

(** Storing [v] under [key] changes the sum by what [v] counts more than
    the value it replaces. *)
Lemma total_count_insert (stats : gmap string JsObject.Value) (key : string)
  (v : JsObject.Value) :
  (Spec.total_count (<[key := v]> stats)
   + from_option Spec.count_of 0 (stats !! key)
   = Spec.count_of v + Spec.total_count stats)%nat.
Proof.
  unfold Spec.total_count.
  assert (Hcomm : ∀ (m : gmap string JsObject.Value) (j1 j2 : string)
                    (z1 z2 : JsObject.Value) (y : nat),
            j1 ≠ j2 → m !! j1 = Some z1 → m !! j2 = Some z2 →
            (Spec.count_of z1 + (Spec.count_of z2 + y)
             = Spec.count_of z2 + (Spec.count_of z1 + y))%nat) by (intros; lia).
  destruct (stats !! key) as [v0|] eqn:Hlookup; simpl.
  - rewrite <- insert_delete_eq.
    rewrite map_fold_insert_L; [|apply Hcomm|apply lookup_delete_eq].
    rewrite (map_fold_delete_L _ _ key v0 stats); [|apply Hcomm|done]. lia.
  - rewrite map_fold_insert_L; [|apply Hcomm|done]. lia.
Qed.

Lemma append_1_nonempty (s : string) : (s +:+ "1")%string ≠ ""%string.
Proof. by destruct s. Qed.

Lemma count_label_total (stats : gmap string JsObject.Value) (x : string) :
  Spec.well_kinded stats →
  Spec.well_kinded (Dashboard.count_label stats x)
  ∧ Spec.total_count (Dashboard.count_label stats x)
    = (Spec.total_count stats + if JsObject.ordinary x then 1 else 0)%nat.
Proof.
  intros Hkinds. unfold Dashboard.count_label, JsObject.set.
  destruct (String.eqb_spec x "__proto__") as [->|Hproto].
  { split; [done|]. simpl. lia. }
  pose proof (total_count_insert stats x (JsObject.or_zero_plus_1 stats x))
    as Htotal.
  assert (match JsObject.or_zero_plus_1 stats x with
          | JsObject.Number n =>
              JsObject.ordinary x = true
              ∧ n = (from_option Spec.count_of 0 (stats !! x) + 1)%nat
          | JsObject.Text s =>
              JsObject.ordinary x = false ∧ s ≠ ""%string
              ∧ from_option Spec.count_of 0%nat (stats !! x) = 0%nat
          end) as Hnew.
  { unfold JsObject.or_zero_plus_1, JsObject.ordinary.
    destruct (stats !! x) as [[n|s]|] eqn:Hx; simpl.
    - apply Hkinds in Hx. split; [done|].
      by destruct (Nat.eqb_spec n 0) as [->|].
    - apply Hkinds in Hx as [Hord Hs]. apply truthy_spec in Hs as ->.
      split; [done|]. split; [apply append_1_nonempty | done].
    - destruct (JsObject.inherited x); [|done].
      split; [done|]. split; [apply append_1_nonempty | done]. }
  split.
  - intros k v. destruct (decide (k = x)) as [->|Hne].
    + rewrite lookup_insert_eq. intros [= <-].
      destruct (JsObject.or_zero_plus_1 stats x); tauto.
    + rewrite lookup_insert_ne by done. apply Hkinds.
  - destruct (JsObject.or_zero_plus_1 stats x) as [n|s]; simpl in *.
    + destruct Hnew as [-> ->]. lia.
    + destruct Hnew as (-> & _ & Hzero). lia.
Qed.

Lemma total_count_table (labels : list string) (stats : gmap string JsObject.Value) :
  Spec.well_kinded stats →
  Spec.total_count (foldl Dashboard.count_label stats labels)
  = (Spec.total_count stats + length (List.filter JsObject.ordinary labels))%nat.
Proof.
  revert stats. induction labels as [|x labels IH]; intros stats Hkinds; simpl.
  - lia.
  - destruct (count_label_total stats x Hkinds) as [Hkinds' Htotal].
    rewrite IH, Htotal by done. destruct (JsObject.ordinary x); simpl; lia.
Qed.

Lemma filter_ordinary_all (labels : list string) :
  (∀ l, l ∈ labels → JsObject.ordinary l = true) →
  List.filter JsObject.ordinary labels = labels.
Proof.
  induction labels as [|x labels IH]; intros Hall; [done|]. simpl.
  rewrite (Hall x) by (by left). rewrite IH; [done|].
  intros l Hl. apply Hall. by right.
Qed.

Lemma flatMap_length_ge (field : Dashboard.Survey → list string)
  (data : list Dashboard.Survey) :
  (∀ s, s ∈ data → field s ≠ []) →
  (length data ≤ length (concat (map field data)))%nat.
Proof.
  induction data as [|s data IH]; intros Hne; simpl; [lia|].
  rewrite length_app.
  assert (field s ≠ []) by (apply Hne; by left).
  assert (length data ≤ length (concat (map field data)))%nat
    by (apply IH; intros s' ?; apply Hne; by right).
  destruct (field s); [done | simpl; lia].
Qed.

Section Statistics.
Context `{JsString.Runtime}.

Lemma fetched_state (data : list Dashboard.Survey) (st : Dashboard.State) :
  Dashboard.step st (Dashboard.Fetched (Dashboard.StoreOk data))
  = Dashboard.applyFilters
      (Dashboard.fetchSurveys (Dashboard.StoreOk data) st).
Proof.
  unfold Dashboard.step, Dashboard.useEffect_applyFilters.
  by rewrite deps_changed_setSurveys.
Qed.

(** X8: right after a successful fetch, a label has an entry in the topic
    (format) table exactly when the topic (format) drop-down offers it and
    it is not "__proto__", under which an object stores nothing; the number
    in the heading, the number of keys of the table, is the number of
    offered labels other than "__proto__", so it is the length of the
    drop-down list when that label does not occur. *)
Theorem fetched_stats_match_labels
  (data : list Dashboard.Survey) (st : Dashboard.State) :
  let st' := Dashboard.step st (Dashboard.Fetched (Dashboard.StoreOk data)) in
  (∀ label, is_Some (Dashboard.topicStats st' !! label)
            ↔ label ∈ Dashboard.uniqueTopics st' ∧ label ≠ "__proto__"%string)
  ∧ (∀ label, is_Some (Dashboard.formatStats st' !! label)
              ↔ label ∈ Dashboard.uniqueFormats st'
                ∧ label ≠ "__proto__"%string)
  ∧ Dashboard.topicStats_keys st'
    = length (Spec.own_keys (Dashboard.uniqueTopics st'))
  ∧ Dashboard.formatStats_keys st'
    = length (Spec.own_keys (Dashboard.uniqueFormats st'))
  ∧ ("__proto__"%string ∉ Dashboard.uniqueTopics st' →
     Dashboard.topicStats_keys st' = length (Dashboard.uniqueTopics st'))
  ∧ ("__proto__"%string ∉ Dashboard.uniqueFormats st' →
     Dashboard.formatStats_keys st' = length (Dashboard.uniqueFormats st')).
Proof.
  intros st'. unfold st'. rewrite fetched_state.
  unfold Dashboard.topicStats_keys, Dashboard.formatStats_keys,
    Dashboard.uniqueTopics, Dashboard.uniqueFormats. simpl.
  rewrite calculateStats_tables_fold. simpl.
  destruct (sort_from_Set_spec (concat (map Dashboard.topics data)))
    as (Ht & _).
  destruct (sort_from_Set_spec (concat (map Dashboard.podcast_formats data)))
    as (Hf & _).
  split; [|split; [|split; [|split; [|split]]]].
  - intros label. by rewrite table_is_Some, Ht.
  - intros label. by rewrite table_is_Some, Hf.
  - apply table_size.
  - apply table_size.
  - intros Hnot. rewrite table_size. by rewrite own_keys_all.
  - intros Hnot. rewrite table_size. by rewrite own_keys_all.
Qed.

(** X9: right after a successful fetch the numbers in the topic table add
    up to the number of topic entries, over all records, whose label is an
    ordinary key (one that names no property of [Object.prototype]), and
    likewise for the formats.  So when all topic labels are ordinary keys
    the sum is the number of all topic entries, and it is at least the
    number of records when every record has a topic. *)
Theorem fetched_stats_total
  (data : list Dashboard.Survey) (st : Dashboard.State) :
  let st' := Dashboard.step st (Dashboard.Fetched (Dashboard.StoreOk data)) in
  Spec.total_count (Dashboard.topicStats st')
  = length (List.filter JsObject.ordinary (concat (map Dashboard.topics data)))
  ∧ Spec.total_count (Dashboard.formatStats st')
    = length (List.filter JsObject.ordinary
                (concat (map Dashboard.podcast_formats data)))
  ∧ ((∀ s l, s ∈ data → l ∈ Dashboard.topics s → JsObject.ordinary l = true) →
     Spec.total_count (Dashboard.topicStats st')
     = length (concat (map Dashboard.topics data))
     ∧ ((∀ s, s ∈ data → Dashboard.topics s ≠ []) →
        (length data ≤ Spec.total_count (Dashboard.topicStats st'))%nat))
  ∧ ((∀ s l, s ∈ data → l ∈ Dashboard.podcast_formats s →
             JsObject.ordinary l = true) →
     Spec.total_count (Dashboard.formatStats st')
     = length (concat (map Dashboard.podcast_formats data))
     ∧ ((∀ s, s ∈ data → Dashboard.podcast_formats s ≠ []) →
        (length data ≤ Spec.total_count (Dashboard.formatStats st'))%nat)).
Proof.
  intros st'. unfold st'. rewrite fetched_state. simpl.
  rewrite calculateStats_tables_fold. simpl.
  assert (Spec.well_kinded ∅) as Hempty
    by (intros k v Hk; by rewrite lookup_empty in Hk).
  rewrite !total_count_table by done.
  assert (Spec.total_count ∅ = 0%nat) as -> by apply map_fold_empty.
  split; [done|]. split; [done|].
  split; intros Hord.
  - rewrite filter_ordinary_all.
    + split; [done|]. intros Hne. by apply flatMap_length_ge.
    + intros l (s & Hs & Hl)%elem_of_flatMap. by apply (Hord s).
  - rewrite filter_ordinary_all.
    + split; [done|]. intros Hne. by apply flatMap_length_ge.
    + intros l (s & Hs & Hl)%elem_of_flatMap. by apply (Hord s).
Qed.

End Statistics.

(** X8 on the 12 sample records: three topics are offered and the heading
    says 3. *)
Lemma fetched_stats_match_labels_witness :
  Dashboard.topicStats_keys (Sample.fetched Sample.twelve) = 3%nat.
Proof.
  destruct (@fetched_stats_match_labels JsString.ascii_runtime Sample.twelve
              Dashboard.initial) as (_ & _ & _ & _ & Hkeys & _).
  unfold Sample.fetched. rewrite Hkeys; [reflexivity|].
  intros Hin. apply list_elem_of_In in Hin. vm_compute in Hin.
  repeat (destruct Hin as [Hin|Hin]; [discriminate Hin|]). destruct Hin.
Defined.

(** X9 on the 12 sample records (7 with two topics, 5 with one): the
    topic counts add up to 19. *)
Lemma fetched_stats_total_witness :
  Spec.total_count (Dashboard.topicStats (Sample.fetched Sample.twelve)) = 19%nat
  ∧ (length Sample.twelve
     ≤ Spec.total_count (Dashboard.topicStats (Sample.fetched Sample.twelve)))%nat.
Proof.
  destruct (@fetched_stats_total JsString.ascii_runtime Sample.twelve
              Dashboard.initial) as (_ & _ & Htopics & _).
  destruct Htopics as [Hsum Hbound].
  - intros s l Hs Hl.
    assert (forallb JsObject.ordinary (concat (map Dashboard.topics Sample.twelve))
            = true) as Hall by (by vm_compute).
    rewrite forallb_forall in Hall. apply Hall, list_elem_of_In.
    apply elem_of_flatMap. by exists s.
  - split.
    + unfold Sample.fetched. rewrite Hsum. reflexivity.
    + apply Hbound. intros s Hs. apply list_elem_of_In in Hs.
      unfold Sample.twelve in Hs. apply in_app_or in Hs as [Hs|Hs];
        apply in_map_iff in Hs as (i & <- & _); discriminate.
Defined.

(** ** Fetching *)

Section Fetching.
Context `{JsString.Runtime}.

Lemma deps_changed_same (st : Dashboard.State) (v : bool) :
  Dashboard.deps_changed st (Dashboard.setLoading v st) = false.
Proof.
  unfold Dashboard.deps_changed. simpl.
  by rewrite Nat.eqb_refl, !String.eqb_refl.
Qed.

(** X10: a fetch that fails changes nothing but [loading], which becomes
    false: records, view, page, filters, statistics and selection stay.  A
    fetch that succeeds stores the data, recomputes both tables from it,
    shows page 1 of the filter of the data under the filters in force, and
    keeps the filters and the selection. *)
Theorem fetch_outcomes (st : Dashboard.State) :
  (∀ message,
     Dashboard.step st (Dashboard.Fetched (Dashboard.StoreError message))
     = Dashboard.setLoading false st)
  ∧ (∀ data,
       let st' := Dashboard.step st (Dashboard.Fetched (Dashboard.StoreOk data)) in
       Dashboard.surveys st' = data
       ∧ Dashboard.loading st' = false
       ∧ (Dashboard.topicStats st', Dashboard.formatStats st')
         = Dashboard.calculateStats_tables data
       ∧ Dashboard.filteredSurveys st'
         = Dashboard.applyFilters_filtered data (Dashboard.topicFilter st)
             (Dashboard.formatFilter st) (Dashboard.searchTerm st)
       ∧ Dashboard.currentPage st' = 1
       ∧ Dashboard.deleteItems st' = Dashboard.deleteItems st
       ∧ (Dashboard.topicFilter st', Dashboard.formatFilter st',
          Dashboard.searchTerm st')
         = (Dashboard.topicFilter st, Dashboard.formatFilter st,
            Dashboard.searchTerm st)).
Proof.
  split.
  - intros message. unfold Dashboard.step, Dashboard.useEffect_applyFilters.
    change (Dashboard.handle (Dashboard.Fetched (Dashboard.StoreError message)) st)
      with (Dashboard.setLoading false st).
    by rewrite deps_changed_same.
  - intros data st'. unfold st'.
    unfold Dashboard.step, Dashboard.useEffect_applyFilters.
    rewrite deps_changed_setSurveys by done. simpl.
    by destruct (Dashboard.calculateStats_tables data).
Qed.

End Fetching.

(** ** Survey form: check boxes, submissions, runs *)

Lemma toggle_elem_of (value x : string) (currentArray : list string) :
  x ∈ SurveyForm.toggle value currentArray
  ↔ (x = value ∧ value ∉ currentArray) ∨ (x ≠ value ∧ x ∈ currentArray).
Proof.
  unfold SurveyForm.toggle.
  destruct (JsArray.includes currentArray value) eqn:Hin.
  - apply array_includes_spec in Hin. rewrite remove_elem_of.
    split; [intros [? ?]; by right | intros [[_ ?]|[? ?]]; done].
  - assert (value ∉ currentArray) as Hnot
      by (rewrite <- array_includes_spec; congruence).
    rewrite elem_of_app, list_elem_of_singleton. split.
    + intros [Hx| ->]; [right | by left].
      split; [intros -> | ]; done.
    + intros [[-> _]|[_ ?]]; [by right | by left].
Qed.

Lemma toggle_position (value : string) (currentArray : list string) :
  (value ∉ currentArray →
   SurveyForm.toggle value currentArray = currentArray ++ [value])
  ∧ (value ∈ currentArray →
     SurveyForm.toggle value currentArray
     = filter (fun item => item ≠ value) currentArray).
Proof.
  unfold SurveyForm.toggle.
  destruct (JsArray.includes currentArray value) eqn:Hin.
  - apply array_includes_spec in Hin. split; [done|]. intros _.
    apply List_filter_decide. intros item.
    by rewrite negb_true_iff, String.eqb_neq.
  - split; [done|]. intros Hin'%array_includes_spec. congruence.
Qed.

(** X11: ticking a topic box flips that topic in the selection: a topic
    that is not selected is added at the end of [topics], after the others
    in their order; a selected one is removed, the others keeping their
    order.  Every other topic stays as it was.  A format box does the same
    for [podcast_formats].  A topic box touches nothing but [topics], a
    format box nothing but [podcast_formats], and neither touches the
    messages or [loading]. *)
Theorem handleCheckboxChange_flips (value : string) (st : SurveyForm.State) :
  (∀ x, x ∈ SurveyForm.topics
              (SurveyForm.formData (SurveyForm.handleCheckboxChange_topics value st))
        ↔ (x = value ∧ value ∉ SurveyForm.topics (SurveyForm.formData st))
          ∨ (x ≠ value ∧ x ∈ SurveyForm.topics (SurveyForm.formData st)))
  ∧ (∀ x, x ∈ SurveyForm.podcast_formats
                (SurveyForm.formData
                   (SurveyForm.handleCheckboxChange_podcast_formats value st))
          ↔ (x = value
             ∧ value ∉ SurveyForm.podcast_formats (SurveyForm.formData st))
            ∨ (x ≠ value
               ∧ x ∈ SurveyForm.podcast_formats (SurveyForm.formData st)))
  ∧ SurveyForm.handleCheckboxChange_topics value st
    = SurveyForm.setFormData
        {| SurveyForm.name := SurveyForm.name (SurveyForm.formData st);
           SurveyForm.topics :=
             SurveyForm.topics
               (SurveyForm.formData (SurveyForm.handleCheckboxChange_topics value st));
           SurveyForm.description := SurveyForm.description (SurveyForm.formData st);
           SurveyForm.podcast_formats :=
             SurveyForm.podcast_formats (SurveyForm.formData st);
           SurveyForm.suggested_guest :=
             SurveyForm.suggested_guest (SurveyForm.formData st) |} st
  ∧ SurveyForm.handleCheckboxChange_podcast_formats value st
    = SurveyForm.setFormData
        {| SurveyForm.name := SurveyForm.name (SurveyForm.formData st);
           SurveyForm.topics := SurveyForm.topics (SurveyForm.formData st);
           SurveyForm.description := SurveyForm.description (SurveyForm.formData st);
           SurveyForm.podcast_formats :=
             SurveyForm.podcast_formats
               (SurveyForm.formData
                  (SurveyForm.handleCheckboxChange_podcast_formats value st));
           SurveyForm.suggested_guest :=
             SurveyForm.suggested_guest (SurveyForm.formData st) |} st
  ∧ (value ∉ SurveyForm.topics (SurveyForm.formData st) →
     SurveyForm.topics
       (SurveyForm.formData (SurveyForm.handleCheckboxChange_topics value st))
     = SurveyForm.topics (SurveyForm.formData st) ++ [value])
  ∧ (value ∈ SurveyForm.topics (SurveyForm.formData st) →
     SurveyForm.topics
       (SurveyForm.formData (SurveyForm.handleCheckboxChange_topics value st))
     = filter (fun item => item ≠ value)
         (SurveyForm.topics (SurveyForm.formData st)))
  ∧ (value ∉ SurveyForm.podcast_formats (SurveyForm.formData st) →
     SurveyForm.podcast_formats
       (SurveyForm.formData
          (SurveyForm.handleCheckboxChange_podcast_formats value st))
     = SurveyForm.podcast_formats (SurveyForm.formData st) ++ [value])
  ∧ (value ∈ SurveyForm.podcast_formats (SurveyForm.formData st) →
     SurveyForm.podcast_formats
       (SurveyForm.formData
          (SurveyForm.handleCheckboxChange_podcast_formats value st))
     = filter (fun item => item ≠ value)
         (SurveyForm.podcast_formats (SurveyForm.formData st))).
Proof.
  destruct (toggle_position value (SurveyForm.topics (SurveyForm.formData st)))
    as [Htadd Htdel].
  destruct (toggle_position value
              (SurveyForm.podcast_formats (SurveyForm.formData st)))
    as [Hfadd Hfdel].
  split; [|split; [|split; [done|split; [done|]]]].
  - intros x. apply toggle_elem_of.
  - intros x. apply toggle_elem_of.
  - split; [exact Htadd|]. split; [exact Htdel|].
    split; [exact Hfadd | exact Hfdel].
Qed.

(** X11 on the complete sample form, where "Science" is the one topic:
    ticking "Sports" puts it after "Science", ticking "Science" leaves no
    topic. *)
Lemma handleCheckboxChange_flips_witness :
  SurveyForm.topics
    (SurveyForm.formData
       (SurveyForm.handleCheckboxChange_topics "Sports" Sample.complete))
  = ["Science"; "Sports"]%string
  ∧ SurveyForm.topics
      (SurveyForm.formData
         (SurveyForm.handleCheckboxChange_topics "Science" Sample.complete))
    = [].
Proof.
  split.
  - destruct (handleCheckboxChange_flips "Sports" Sample.complete)
      as (_ & _ & _ & _ & Hadd & _).
    rewrite Hadd; [reflexivity|].
    intros Hin. apply list_elem_of_In in Hin. simpl in Hin.
    destruct Hin as [Hin|[]]. discriminate Hin.
  - destruct (handleCheckboxChange_flips "Science" Sample.complete)
      as (_ & _ & _ & _ & _ & Hdel & _).
    rewrite Hdel; [reflexivity|]. simpl. by left.
Defined.

(** X12: [handleSubmit] ends with [success] true exactly when both
    selections are non-empty and the store inserted the row; then the form
    is reset to the empty form and no error is shown.  In every other case
    the form data are kept as entered; and when the store refused the row,
    the error shown is the error's message (a fixed text for a thrown value
    that is not an [Error]) and [loading] is false again. *)
Theorem handleSubmit_outcomes
  (v : SurveyForm.Variant) (store : SurveyForm.Row.t → SurveyForm.InsertOutcome)
  (st : SurveyForm.State) :
  (SurveyForm.success (fst (SurveyForm.handleSubmit v store st)) = true
   ↔ SurveyForm.topics (SurveyForm.formData st) ≠ []
     ∧ SurveyForm.podcast_formats (SurveyForm.formData st) ≠ []
     ∧ store (SurveyForm.insertRow (SurveyForm.formData st)) = SurveyForm.Inserted)
  ∧ (SurveyForm.success (fst (SurveyForm.handleSubmit v store st)) = true →
     fst (SurveyForm.handleSubmit v store st)
     = {| SurveyForm.formData := SurveyForm.emptyForm;
          SurveyForm.loading := false; SurveyForm.success := true;
          SurveyForm.error := "" |})
  ∧ (SurveyForm.success (fst (SurveyForm.handleSubmit v store st)) = false →
     SurveyForm.formData (fst (SurveyForm.handleSubmit v store st))
     = SurveyForm.formData st)
  ∧ (∀ e, SurveyForm.topics (SurveyForm.formData st) ≠ [] →
          SurveyForm.podcast_formats (SurveyForm.formData st) ≠ [] →
          store (SurveyForm.insertRow (SurveyForm.formData st))
          = SurveyForm.InsertError e
          ∨ store (SurveyForm.insertRow (SurveyForm.formData st))
            = SurveyForm.Rejected e →
          fst (SurveyForm.handleSubmit v store st)
          = {| SurveyForm.formData := SurveyForm.formData st;
               SurveyForm.loading := false; SurveyForm.success := false;
               SurveyForm.error :=
                 if SurveyForm.instanceof_Error e then SurveyForm.message e
                 else "An error occurred" |}).
Proof.
  unfold SurveyForm.handleSubmit. simpl.
  destruct (SurveyForm.topics (SurveyForm.formData st)) as [|t ts] eqn:Ht; simpl.
  { split; [split; [done | by intros [? _]]|]. by repeat split. }
  destruct (SurveyForm.podcast_formats (SurveyForm.formData st)) as [|f fs] eqn:Hf;
    simpl.
  { split; [split; [done | by intros (_ & ? & _)]|]. by repeat split. }
  unfold SurveyForm.insertRow. rewrite Ht, Hf.
  destruct (store _) as [|e|e] eqn:Hstore; simpl.
  - split; [split; done|]. split; [done|]. split; [done|].
    intros e _ _ [?|?]; done.
  - split; [split; [done | by intros (_ & _ & ?)]|]. split; [done|].
    split; [done|]. intros e' _ _ [[= <-]|?]; done.
  - split; [split; [done | by intros (_ & _ & ?)]|]. split; [done|].
    split; [done|]. intros e' _ _ [?|[= <-]]; done.
Qed.

(** X12 on the complete sample form and a store that accepts: the form is
    reset and [success] is set. *)
Lemma handleSubmit_outcomes_witness :
  fst (SurveyForm.handleSubmit SurveyForm.English Sample.accepting Sample.complete)
  = {| SurveyForm.formData := SurveyForm.emptyForm;
       SurveyForm.loading := false; SurveyForm.success := true;
       SurveyForm.error := "" |}.
Proof.
  destruct (handleSubmit_outcomes SurveyForm.English Sample.accepting
              Sample.complete) as (_ & Hreset & _).
  apply Hreset. reflexivity.
Defined.

(** The selections of the form hold no label twice and only labels of the
    variant's vocabularies. *)
Lemma toggle_drawn_from (vocabulary currentArray : list string) (value : string) :
  JsArray.includes vocabulary value = true →
  Spec.drawn_from vocabulary currentArray →
  Spec.drawn_from vocabulary (SurveyForm.toggle value currentArray).
Proof.
  intros Hin%array_includes_spec Hall x.
  rewrite toggle_elem_of. intros [[-> _]|[_ Hx]]; [done | by apply Hall].
Qed.

Lemma form_step_keeps_selections
  (v : SurveyForm.Variant) (ev : SurveyForm.Event) (st : SurveyForm.State) :
  SurveyForm.enabled v ev = true →
  NoDup (SurveyForm.topics (SurveyForm.formData st))
  ∧ NoDup (SurveyForm.podcast_formats (SurveyForm.formData st))
  ∧ Spec.drawn_from (SurveyForm.TOPICS v)
      (SurveyForm.topics (SurveyForm.formData st))
  ∧ Spec.drawn_from (SurveyForm.PODCAST_FORMATS v)
      (SurveyForm.podcast_formats (SurveyForm.formData st)) →
  NoDup (SurveyForm.topics (SurveyForm.formData (fst (SurveyForm.step v st ev))))
  ∧ NoDup (SurveyForm.podcast_formats
             (SurveyForm.formData (fst (SurveyForm.step v st ev))))
  ∧ Spec.drawn_from (SurveyForm.TOPICS v)
      (SurveyForm.topics (SurveyForm.formData (fst (SurveyForm.step v st ev))))
  ∧ Spec.drawn_from (SurveyForm.PODCAST_FORMATS v)
      (SurveyForm.podcast_formats
         (SurveyForm.formData (fst (SurveyForm.step v st ev))))
  ∧ ∀ row, row ∈ snd (SurveyForm.step v st ev) → Spec.well_formed_row v row.
Proof.
  intros Hen (Ht & Hf & Htv & Hfv).
  assert (Hnone : ∀ row : SurveyForm.Row.t, row ∈ [] → Spec.well_formed_row v row)
    by (intros row Hrow; by apply elem_of_nil in Hrow).
  assert (Hempty : ∀ vocabulary, Spec.drawn_from vocabulary [])
    by (intros vocabulary x Hx; by apply elem_of_nil in Hx).
  destruct ev as [value|value|value|topic|format|store]; simpl in *.
  - done.
  - done.
  - done.
  - split; [by apply toggle_NoDup|]. split; [done|].
    split; [by apply toggle_drawn_from|]. done.
  - split; [done|]. split; [by apply toggle_NoDup|]. split; [done|].
    split; [by apply toggle_drawn_from|]. done.
  - unfold SurveyForm.handleSubmit. simpl.
    destruct (SurveyForm.topics (SurveyForm.formData st)) as [|t ts] eqn:Htopics;
      simpl.
    { by rewrite Htopics. }
    destruct (SurveyForm.podcast_formats (SurveyForm.formData st))
      as [|f fs] eqn:Hformats; simpl.
    { by rewrite Htopics, Hformats. }
    assert (Spec.well_formed_row v (SurveyForm.insertRow (SurveyForm.formData st)))
      as Hrow.
    { unfold Spec.well_formed_row. simpl. by rewrite Htopics, Hformats. }
    unfold SurveyForm.insertRow in *. rewrite Htopics, Hformats in *.
    destruct (store _); simpl; rewrite ?Htopics, ?Hformats;
      (split; [done || apply NoDup_nil_2|]);
      (split; [done || apply NoDup_nil_2|]);
      (split; [done|]); (split; [done|]);
      by intros row ->%list_elem_of_singleton.
Qed.

Lemma form_run_rows
  (v : SurveyForm.Variant) (evs : list SurveyForm.Event)
  (st st' : SurveyForm.State) (rows : list SurveyForm.Row.t) :
  NoDup (SurveyForm.topics (SurveyForm.formData st))
  ∧ NoDup (SurveyForm.podcast_formats (SurveyForm.formData st))
  ∧ Spec.drawn_from (SurveyForm.TOPICS v)
      (SurveyForm.topics (SurveyForm.formData st))
  ∧ Spec.drawn_from (SurveyForm.PODCAST_FORMATS v)
      (SurveyForm.podcast_formats (SurveyForm.formData st)) →
  SurveyForm.run v st evs = Some (st', rows) →
  ∀ row, row ∈ rows → Spec.well_formed_row v row.
Proof.
  revert st st' rows. induction evs as [|ev evs IH]; intros st st' rows Hinv; simpl.
  - intros [= <- <-] row Hrow. by apply elem_of_nil in Hrow.
  - destruct (SurveyForm.enabled v ev) eqn:Hen; [|done].
    destruct (form_step_keeps_selections v ev st Hen Hinv)
      as (Ht & Hf & Htv & Hfv & Hrows).
    destruct (SurveyForm.run v (fst (SurveyForm.step v st ev)) evs)
      as [[st'' rows']|] eqn:Hrun; [|done].
    intros [= <- <-] row [Hrow|Hrow]%elem_of_app.
    + by apply Hrows.
    + by apply (IH _ _ _ (conj Ht (conj Hf (conj Htv Hfv))) Hrun).
Qed.

(** X13: every row the form sends to the store, in any run from the empty
    form in which the check boxes ticked are rendered ones, has at least
    one topic and one format, lists no label twice, and takes its topics
    and formats from [TOPICS] and [PODCAST_FORMATS]. *)
Theorem form_rows_well_formed
  (v : SurveyForm.Variant) (evs : list SurveyForm.Event)
  (st : SurveyForm.State) (rows : list SurveyForm.Row.t) :
  SurveyForm.run v SurveyForm.initial evs = Some (st, rows) →
  ∀ row, row ∈ rows → Spec.well_formed_row v row.
Proof.
  apply form_run_rows. simpl.
  split; [apply NoDup_nil_2|]. split; [apply NoDup_nil_2|].
  split; intros x Hx; by apply elem_of_nil in Hx.
Qed.

(** X13 on the sample session: one row is sent, and it is well formed. *)
Lemma form_rows_well_formed_witness :
  match SurveyForm.run SurveyForm.English SurveyForm.initial Sample.filling with
  | Some (st, rows) =>
      ∀ row, row ∈ rows → Spec.well_formed_row SurveyForm.English row
  | None => False
  end.
Proof.
  destruct (SurveyForm.run SurveyForm.English SurveyForm.initial Sample.filling)
    as [[st rows]|] eqn:Hrun.
  - exact (form_rows_well_formed SurveyForm.English Sample.filling st rows Hrun).
  - vm_compute in Hrun. discriminate Hrun.
Defined.

Example filling_sends_one_row :
  SurveyForm.run SurveyForm.English SurveyForm.initial Sample.filling
  = Some
      ({| SurveyForm.formData := SurveyForm.emptyForm;
          SurveyForm.loading := false; SurveyForm.success := false;
          SurveyForm.error := "Please select at least one topic" |},
       [{| SurveyForm.Row.name := "Ana";
           SurveyForm.Row.topics := ["Science"];
           SurveyForm.Row.description := "";
           SurveyForm.Row.podcast_formats := ["Interview"];
           SurveyForm.Row.suggested_guest := None |}]).
Proof. reflexivity. Qed.

(** ** Login *)

Lemma has_spec (searchParams : list (string * string)) (name : string) :
  Login.has searchParams name = true ↔ ∃ value, (name, value) ∈ searchParams.
Proof.
  unfold Login.has. rewrite existsb_exists. split.
  - intros ([k value] & Hin & Heq). apply String.eqb_eq in Heq. simpl in Heq.
    subst k. exists value. by apply list_elem_of_In.
  - intros (value & Hin). exists (name, value).
    split; [by apply list_elem_of_In | apply String.eqb_refl].
Qed.

(** X14: without an [admin] parameter in the URL, [handleLogin] shows
    "Access denied. Invalid URL." and asks nothing of the identity service.
    It navigates to the dashboard exactly when the parameter is there, the
    sign-in reports no error and a session comes back; the only sign-in it
    ever requests is the one for the e-mail and password typed; and a
    sign-in error is shown as the error's message, with [loading] false
    again. *)
Theorem handleLogin_gate
  (searchParams : list (string * string)) (auth : string → string → Login.SignIn)
  (st : Login.State) :
  ((¬ ∃ value, ("admin"%string, value) ∈ searchParams) →
   Login.handleLogin searchParams auth st
   = (Login.setError "Access denied. Invalid URL." st, []))
  ∧ (Login.Navigate "/dashboard" ∈ snd (Login.handleLogin searchParams auth st)
     ↔ (∃ value, ("admin"%string, value) ∈ searchParams)
       ∧ Login.loginError (auth (Login.email st) (Login.password st)) = None
       ∧ Login.session (auth (Login.email st) (Login.password st)) = true)
  ∧ (∀ effect, effect ∈ snd (Login.handleLogin searchParams auth st) →
       effect = Login.SignInWithPassword (Login.email st) (Login.password st)
       ∨ effect = Login.Navigate "/dashboard")
  ∧ (∀ message,
       (∃ value, ("admin"%string, value) ∈ searchParams) →
       Login.loginError (auth (Login.email st) (Login.password st))
       = Some message →
       Login.handleLogin searchParams auth st
       = ({| Login.email := Login.email st; Login.password := Login.password st;
             Login.error := message; Login.loading := false |},
          [Login.SignInWithPassword (Login.email st) (Login.password st)])).
Proof.
  rewrite <- !has_spec. unfold Login.handleLogin. simpl.
  destruct (Login.has searchParams "admin") eqn:Hhas; simpl.
  - split; [by intros []|].
    destruct (auth (Login.email st) (Login.password st)) as [session [message|]];
      simpl.
    + split; [|split].
      * rewrite list_elem_of_singleton. split; [done | by intros (_ & ? & _)].
      * intros effect ->%list_elem_of_singleton. by left.
      * by intros message' _ [= <-].
    + destruct session; simpl; (split; [|split]).
      * split; [done | intros _; apply elem_of_cons; right; by left].
      * intros effect [->|[->|[]%elem_of_nil]%elem_of_cons]%elem_of_cons;
          [by left | by right].
      * done.
      * rewrite list_elem_of_singleton. split; [done | by intros (_ & _ & ?)].
      * intros effect ->%list_elem_of_singleton. by left.
      * done.
  - split; [done|]. split; [|split].
    + split; [by intros ?%elem_of_nil | by intros [? _]].
    + by intros effect ?%elem_of_nil.
    + intros message Hadmin%has_spec. congruence.
Qed.

(** X14 on the URL [/login?admin] with a service that opens a session:
    the handler signs in and goes to the dashboard. *)
Lemma handleLogin_gate_witness :
  Login.Navigate "/dashboard"
  ∈ snd (Login.handleLogin [("admin"%string, ""%string)]
           (fun _ _ => {| Login.session := true; Login.loginError := None |})
           Login.initial).
Proof.
  destruct (handleLogin_gate [("admin"%string, ""%string)]
              (fun _ _ => {| Login.session := true; Login.loginError := None |})
              Login.initial) as (_ & Hnav & _).
  apply Hnav. split; [|done]. exists ""%string. by left.
Defined.

(** ** Theme *)

(** X15: the theme the provider writes to [localStorage] is the theme it
    starts with after a reload, for every theme but the empty string; the
    write touches no other key.  With no stored theme, or an empty one, the
    provider starts with "light". *)
Theorem theme_round_trip (theme : string) (page : Theme.Page) :
  (theme ≠ ""%string →
   Theme.initialTheme (Theme.useEffect_theme theme page) = theme)
  ∧ (∀ key, key ≠ "theme"%string →
       Theme.localStorage (Theme.useEffect_theme theme page) !! key
       = Theme.localStorage page !! key)
  ∧ (Theme.localStorage page !! "theme"%string = None
     ∨ Theme.localStorage page !! "theme"%string = Some ""%string →
     Theme.initialTheme page = "light"%string).
Proof.
  unfold Theme.initialTheme. simpl. split; [|split].
  - intros Hne. rewrite lookup_insert_eq.
    by apply truthy_spec in Hne as ->.
  - intros key Hkey. by rewrite lookup_insert_ne.
  - by intros [->| ->].
Qed.

(** X15 for the dark theme over an empty storage. *)
Lemma theme_round_trip_witness :
  Theme.initialTheme
    (Theme.useEffect_theme "dark"
       {| Theme.localStorage := ∅; Theme.backgroundColor := "";
          Theme.color := "" |})
  = "dark"%string.
Proof.
  destruct (theme_round_trip "dark"
              {| Theme.localStorage := ∅; Theme.backgroundColor := "";
                 Theme.color := "" |}) as [Hround _].
  apply Hround. discriminate.
Defined.

(** X16: whatever string the theme is, one toggle gives "light" or "dark",
    the button's title names the theme the toggle gives, and the page's
    background and text colours are those of the palette.  Two toggles give
    the theme back exactly when it is "light" or "dark", and on these a
    toggle changes the background. *)
Theorem toggleTheme_behaviour (theme : string) (page : Theme.Page) :
  (Theme.toggleTheme theme = "light"%string
   ∨ Theme.toggleTheme theme = "dark"%string)
  ∧ (Theme.toggleTheme (Theme.toggleTheme theme) = theme
     ↔ theme = "light"%string ∨ theme = "dark"%string)
  ∧ Theme.title theme
    = ("Switch to " +:+ Theme.toggleTheme theme +:+ " mode")%string
  ∧ Theme.backgroundColor (Theme.useEffect_theme theme page)
    = Theme.bg (Theme.colors theme)
  ∧ Theme.color (Theme.useEffect_theme theme page)
    = Theme.text (Theme.colors theme)
  ∧ (theme = "light"%string ∨ theme = "dark"%string →
     Theme.bg (Theme.colors (Theme.toggleTheme theme))
     ≠ Theme.bg (Theme.colors theme)).
Proof.
  unfold Theme.toggleTheme, Theme.title.
  destruct (String.eqb_spec theme "light") as [->|Hlight]; simpl.
  - repeat split; try done; by auto.
  - repeat split; try done.
    + by left.
    + intros Heq. by right.
    + by intros [?|Hdark].
    + by intros [?| ->].
Qed.

(** X16 on the dark theme: a toggle gives the light background. *)
Lemma toggleTheme_behaviour_witness :
  Theme.bg (Theme.colors (Theme.toggleTheme "dark")) ≠ Theme.bg (Theme.colors "dark").
Proof.
  destruct (toggleTheme_behaviour "dark"
              {| Theme.localStorage := ∅; Theme.backgroundColor := "";
                 Theme.color := "" |}) as (_ & _ & _ & _ & _ & Hbg).
  apply Hbg. by right.
Defined.

(** ** View controller: what an event leaves alone *)

Section Frame.
Context `{JsString.Runtime}.

Lemma step_frame {A} (get : Dashboard.State → A) (st : Dashboard.State)
  (ev : Dashboard.Event) :
  (∀ st0, get (Dashboard.applyFilters st0) = get st0) →
  get (Dashboard.handle ev st) = get st →
  get (Dashboard.step st ev) = get st.
Proof.
  intros Hfilter Hhandle. unfold Dashboard.step, Dashboard.useEffect_applyFilters.
  destruct (Dashboard.deps_changed _ _); [by rewrite Hfilter | done].
Qed.

(** X17: the two stats tables change with a successful fetch and with
    nothing else (not with a filter, a page, a mark or a delete); the
    records change only with a successful fetch or a successful delete;
    and the selection changes only with a click on a row or a successful
    delete. *)
Theorem step_leaves_alone (st : Dashboard.State) (ev : Dashboard.Event) :
  ((∀ data, ev ≠ Dashboard.Fetched (Dashboard.StoreOk data)) →
   Dashboard.topicStats (Dashboard.step st ev) = Dashboard.topicStats st
   ∧ Dashboard.formatStats (Dashboard.step st ev) = Dashboard.formatStats st)
  ∧ ((∀ data, ev ≠ Dashboard.Fetched (Dashboard.StoreOk data)) →
     (∀ ids, ev ≠ Dashboard.DeleteSelected ids true (Dashboard.StoreOk ())) →
     Dashboard.surveys (Dashboard.step st ev) = Dashboard.surveys st)
  ∧ ((∀ i, ev ≠ Dashboard.ToggleDeleteItem i) →
     (∀ ids, ev ≠ Dashboard.DeleteSelected ids true (Dashboard.StoreOk ())) →
     Dashboard.deleteItems (Dashboard.step st ev) = Dashboard.deleteItems st).
Proof.
  split; [|split].
  - intros Hfetch. split; apply step_frame; try done.
    + destruct ev as [[data|msg]|v|v|v| |n|i|ids [|] [[]|msg]]; simpl; try done.
      * by destruct (Hfetch data).
      * unfold Dashboard.toggleDeleteItem. by destruct (JsArray.includes _ _).
    + destruct ev as [[data|msg]|v|v|v| |n|i|ids [|] [[]|msg]]; simpl; try done.
      * by destruct (Hfetch data).
      * unfold Dashboard.toggleDeleteItem. by destruct (JsArray.includes _ _).
  - intros Hfetch Hdelete. apply step_frame; [done|].
    destruct ev as [[data|msg]|v|v|v| |n|i|ids [|] [[]|msg]]; simpl; try done.
    + by destruct (Hfetch data).
    + unfold Dashboard.toggleDeleteItem. by destruct (JsArray.includes _ _).
    + by destruct (Hdelete ids).
  - intros Htoggle Hdelete. apply step_frame; [done|].
    destruct ev as [[data|msg]|v|v|v| |n|i|ids [|] [[]|msg]]; simpl; try done.
    + by destruct (Htoggle i).
    + by destruct (Hdelete ids).
Qed.

(** X18: an input that does not change anything leaves the whole state as
    it is, the page number included: choosing the topic or the format
    already chosen, typing the search term already there, and clearing
    filters that are already clear. *)
Theorem unchanged_input_keeps_page (st : Dashboard.State) :
  Dashboard.step st (Dashboard.TopicFilterChanged (Dashboard.topicFilter st)) = st
  ∧ Dashboard.step st (Dashboard.FormatFilterChanged (Dashboard.formatFilter st))
    = st
  ∧ Dashboard.step st (Dashboard.SearchTermChanged (Dashboard.searchTerm st)) = st
  ∧ (Dashboard.topicFilter st = "all"%string
     ∧ Dashboard.formatFilter st = "all"%string
     ∧ Dashboard.searchTerm st = ""%string →
     Dashboard.step st Dashboard.ClearFilters = st).
Proof.
  assert (Hsame : Dashboard.deps_changed st st = false).
  { unfold Dashboard.deps_changed.
    by rewrite Nat.eqb_refl, !String.eqb_refl. }
  unfold Dashboard.step, Dashboard.useEffect_applyFilters.
  split; [|split; [|split]].
  - replace (Dashboard.handle _ st) with st by (by destruct st).
    by rewrite Hsame.
  - replace (Dashboard.handle _ st) with st by (by destruct st).
    by rewrite Hsame.
  - replace (Dashboard.handle _ st) with st by (by destruct st).
    by rewrite Hsame.
  - intros (Ht & Hf & Hs).
    replace (Dashboard.handle _ st) with st.
    + by rewrite Hsame.
    + destruct st; simpl in *. by subst.
Qed.

End Frame.

(** X17 on the loaded sample with two stats entries: deleting the marked
    record leaves the tables as they were. *)
Lemma step_leaves_alone_witness :
  Dashboard.topicStats
    (@Dashboard.step JsString.ascii_runtime Sample.loaded
       (Dashboard.DeleteSelected ["b2"] true (Dashboard.StoreOk ())))
  = Dashboard.topicStats Sample.loaded.
Proof.
  destruct (@step_leaves_alone JsString.ascii_runtime Sample.loaded
              (Dashboard.DeleteSelected ["b2"] true (Dashboard.StoreOk ())))
    as [Hstats _].
  by destruct Hstats.
Defined.

(** X18 on the loaded sample, which shows page 3 with clear filters:
    "Clear Filters" leaves it on page 3. *)
Lemma unchanged_input_keeps_page_witness :
  Dashboard.currentPage
    (@Dashboard.step JsString.ascii_runtime Sample.loaded Dashboard.ClearFilters)
  = 3.
Proof.
  destruct (@unchanged_input_keeps_page JsString.ascii_runtime Sample.loaded)
    as (_ & _ & _ & Hclear).
  by rewrite Hclear.
Defined.

(** ** Aggregator: the counts for every collection *)

Lemma string_app_assoc (a b c : string) :
  ((a +:+ b) +:+ c = a +:+ (b +:+ c))%string.
Proof.
  induction a as [|x a IH]; [reflexivity|].
  change (String x ((a +:+ b) +:+ c) = String x (a +:+ (b +:+ c))).
  by f_equal.
Qed.

Lemma truthy_app_ones (text : string) (k : nat) :
  JsString.truthy (text +:+ JsObject.ones (S k)) = true.
Proof.
  apply truthy_spec.
  change (JsObject.ones (S k)) with (JsObject.ones k +:+ "1")%string.
  rewrite <- (string_app_assoc text (JsObject.ones k) "1").
  apply append_1_nonempty.
Qed.

Lemma foldl_count_label_proto (labels : list string)
  (stats : gmap string JsObject.Value) :
  foldl Dashboard.count_label stats labels !! "__proto__"%string
  = stats !! "__proto__"%string.
Proof.
  revert stats. induction labels as [|x labels IH]; intros stats; [done|].
  simpl. rewrite IH. destruct (decide (x = "__proto__"%string)) as [->|Hne].
  - done.
  - by apply count_label_lookup_ne.
Qed.

(** One table after counting the labels of [labels] into [stats], at a label
    that reads [text] from the prototype. *)
Lemma foldl_count_label_inherited (labels : list string)
  (stats : gmap string JsObject.Value) (label text : string) (k : nat) :
  String.eqb label "__proto__" = false →
  JsObject.inherited label = Some text →
  stats !! label = Spec.text_entry text k →
  foldl Dashboard.count_label stats labels !! label
  = Spec.text_entry text
      (k + length (List.filter (fun l => bool_decide (l = label)) labels)).
Proof.
  intros Hproto Htext. revert stats k.
  induction labels as [|x labels IH]; intros stats k Hk; simpl.
  - by rewrite Nat.add_0_r.
  - destruct (decide (x = label)) as [->|Hne].
    + rewrite bool_decide_eq_true_2 by done. simpl length.
      rewrite (IH _ (S k)); [f_equal; lia|].
      rewrite count_label_lookup_eq by done.
      unfold JsObject.or_zero_plus_1. rewrite Hk, Htext.
      destruct k as [|k]; [done|]. unfold Spec.text_entry at 1.
      rewrite truthy_app_ones. simpl. by rewrite string_app_assoc.
    + rewrite bool_decide_eq_false_2 by done.
      apply IH. by rewrite count_label_lookup_ne.
Qed.

(** X19: for every collection, repeated labels and labels that name
    properties of [Object.prototype] included, each table holds: under a
    label that is an ordinary key, the number of positions at which the
    label occurs in the records' arrays of the field (no entry when it
    occurs nowhere); under a label that names an inherited function, the
    text read from the prototype followed by one "1" per occurrence (no
    entry when it occurs nowhere); and under "__proto__" never an entry. *)
Theorem calculateStats_counts_positions_everywhere
  (data : list Dashboard.Survey) (st : Dashboard.State) (label : string) :
  (JsObject.ordinary label = true →
   Dashboard.topicStats (Dashboard.calculateStats data st) !! label
   = Spec.table_entry (Spec.occurrences Dashboard.topics label data)
   ∧ Dashboard.formatStats (Dashboard.calculateStats data st) !! label
     = Spec.table_entry (Spec.occurrences Dashboard.podcast_formats label data))
  ∧ (∀ text,
       label ≠ "__proto__"%string → JsObject.inherited label = Some text →
       Dashboard.topicStats (Dashboard.calculateStats data st) !! label
       = Spec.text_entry text (Spec.occurrences Dashboard.topics label data)
       ∧ Dashboard.formatStats (Dashboard.calculateStats data st) !! label
         = Spec.text_entry text
             (Spec.occurrences Dashboard.podcast_formats label data))
  ∧ Dashboard.topicStats (Dashboard.calculateStats data st) !! "__proto__"%string
    = None
  ∧ Dashboard.formatStats (Dashboard.calculateStats data st) !! "__proto__"%string
    = None
  ∧ (label ≠ "__proto__"%string →
     (Dashboard.topicStats (Dashboard.calculateStats data st) !! label = None
      ↔ ∀ s, s ∈ data → label ∉ Dashboard.topics s)
     ∧ (Dashboard.formatStats (Dashboard.calculateStats data st) !! label = None
        ↔ ∀ s, s ∈ data → label ∉ Dashboard.podcast_formats s)).
Proof.
  unfold Dashboard.calculateStats. simpl.
  rewrite calculateStats_tables_fold. simpl. unfold Spec.occurrences.
  split; [|split; [|split; [|split]]].
  - intros Hord. split; by apply table_lookup.
  - intros text Hproto%String.eqb_neq Htext.
    split; by rewrite (foldl_count_label_inherited _ _ _ text 0).
  - by rewrite foldl_count_label_proto.
  - by rewrite foldl_count_label_proto.
  - intros Hproto.
    assert (Hnone : ∀ labels : list string,
              foldl Dashboard.count_label ∅ labels !! label = None
              ↔ label ∉ labels).
    { intros labels. rewrite eq_None_not_Some, table_is_Some. tauto. }
    rewrite !Hnone. split.
    + split; [intros Hnot s Hs Hin | intros Hnot Hin].
      * apply Hnot, elem_of_flatMap. by exists s.
      * apply elem_of_flatMap in Hin as (s & Hs & Hin). by apply (Hnot s).
    + split; [intros Hnot s Hs Hin | intros Hnot Hin].
      * apply Hnot, elem_of_flatMap. by exists s.
      * apply elem_of_flatMap in Hin as (s & Hs & Hin). by apply (Hnot s).
Qed.

(** X19 on a record whose topics are "constructor", "__proto__" and
    "Science": a number under "Science", a text under "constructor". *)
Lemma calculateStats_counts_positions_everywhere_witness :
  Dashboard.topicStats
    (Dashboard.calculateStats [Sample.inherited_names] Dashboard.initial)
    !! "Science"%string
  = Some (JsObject.Number 1)
  ∧ Dashboard.topicStats
      (Dashboard.calculateStats [Sample.inherited_names] Dashboard.initial)
      !! "constructor"%string
    = Some (JsObject.Text "function Object() { [native code] }1").
Proof.
  split.
  - destruct (calculateStats_counts_positions_everywhere
                [Sample.inherited_names] Dashboard.initial "Science")
      as (Hnumber & _).
    destruct Hnumber as [-> _]; reflexivity.
  - destruct (calculateStats_counts_positions_everywhere
                [Sample.inherited_names] Dashboard.initial "constructor")
      as (_ & Htext & _).
    destruct (Htext "function Object() { [native code] }"%string) as [-> _];
      [discriminate | reflexivity | reflexivity].
Defined.
